(** * The VirtualBox builder: configuration validation, run and cancel

    A shallow embedding of the two revisions of [builder.go] of the
    [virtualbox] builder package:

    - [Iso]  : the revision with [iso_md5] / [iso_url] validation
               (src/unnamed/part_000);
    - [Base] : the earlier revision without ISO handling
               (src/builder/virtualbox/builder.go).

    Go's methods on [*Builder] mutate the receiver and talk to the outside
    world (file system, PATH lookup, logger, step runner).  They are
    embedded as computations in a small state monad over a [Machine]: the
    receiver plus the trace of outside-world events performed so far.  A
    computation may also panic (a method call through a nil pointer or nil
    interface value), which is an outcome of its own. *)

From Stdlib Require Import Ascii.
From stdpp Require Import base strings list gmap.

Open Scope string_scope.
Open Scope list_scope.

(** ** Go runtime: errors, events, the method monad *)

(** A Go [error] value is identified with its [Error()] text; the nil
    error is [None] in [option error]. *)
Definition error : Type := string.

Definition errors_New (msg : string) : error := msg.

(** [fmt.Errorf (prefix ++ "%s", arg)]: every format string of the package
    ends in its single [%s] verb. *)
Definition fmt_Errorf (prefix : string) (arg : string) : error := prefix +:+ arg.

(** The builtin [append(s, x)] on a slice. *)
Definition go_append {A} (s : list A) (x : A) : list A := s ++ [x].

(** The [Driver] interface value.  The interface and its one
    implementation are declared in another file of the package; the
    builder only constructs [&VBox42Driver{vboxmanagePath}], a struct
    with the path of the tool as its single field. *)
Inductive Driver : Type :=
| VBox42Driver (VBoxManagePath : string).

(** The step types instantiated by [Run] (declared in other files of the
    package; [Run] only lists them). *)
Inductive Step : Type :=
| stepDownloadISO
| stepPrepareOutputDir
| stepSuppressMessages
| stepCreateVM
| stepCreateDisk
| stepAttachISO.

(** Calls that leave the process, in program order. *)
Inductive Event : Type :=
| EvStat (path : string)          (* os.Stat(path) *)
| EvLookPath (file : string)      (* exec.LookPath(file) *)
| EvVerify (d : Driver)           (* d.Verify() *)
| EvLog (line : string)           (* log.Println / log.Printf *)
| EvRunnerRun (steps : list Step) (* runner.Run(state) *)
| EvRunnerCancel.                 (* runner.Cancel() *)

(** Driver-side events: locating the external tool and verifying the
    driver built around it. *)
Definition driver_event (ev : Event) : bool :=
  match ev with
  | EvLookPath _ | EvVerify _ => true
  | _ => false
  end.

Record Machine (B : Type) : Type := mkMachine {
  self : B;                (* the receiver, [*b] *)
  trace : list Event       (* events so far, oldest first *)
}.
Arguments mkMachine {B} _ _.
Arguments self {B} _.
Arguments trace {B} _.

Inductive Res (S A : Type) : Type :=
| Done (a : A) (s : S)
| Panic (why : string).
Arguments Done {S A} _ _.
Arguments Panic {S A} _.

Definition M (S A : Type) : Type := S -> Res S A.

#[global] Instance M_ret {S} : MRet (M S) := λ A a s, Done a s.

#[global] Instance M_bind {S} : MBind (M S) := λ A B f m s,
  match m s with
  | Done a s' => f a s'
  | Panic why => Panic why
  end.

Definition panic {S A} (why : string) : M S A := λ _, Panic why.

Definition getSelf {B} : M (Machine B) B := λ m, Done (self m) m.

Definition modifySelf {B} (f : B -> B) : M (Machine B) unit :=
  λ m, Done tt (mkMachine (f (self m)) (trace m)).

Definition emit {B} (ev : Event) : M (Machine B) unit :=
  λ m, Done tt (mkMachine (self m) (go_append (trace m) ev)).

(** What a finished call returned; [None] after a panic. *)
Definition returned {S A} (r : Res S A) : option A :=
  match r with Done a _ => Some a | Panic _ => None end.

(** ** The world outside the package

    Everything [builder.go] imports: [mapstructure], [net/url], [os],
    [os/exec], [strings], [multistep], and the [Verify] method of the
    driver (declared in another file of the package).  The builder is
    verified against any behaviour of these. *)

(** [net/url.URL] and [net/url.Userinfo]. *)
Record Userinfo : Type := mkUserinfo {
  username : string;
  password : option string
}.

Record URL : Type := mkURL {
  Scheme : string;
  Opaque : string;
  User : option Userinfo;
  Host : string;
  Path : string;
  RawQuery : string;
  Fragment : string
}.

Definition set_Scheme (v : string) (u : URL) : URL :=
  mkURL v (Opaque u) (User u) (Host u) (Path u) (RawQuery u) (Fragment u).

(** Values stored in the state bag [map[string]interface{}].  The bag
    holds a pointer to the receiver's config, not a copy. *)
Inductive Value (Ui Hook Cache : Type) : Type :=
| VCache (c : Cache)
| VConfigPtr
| VDriver (d : option Driver)
| VHook (h : Hook)
| VUi (u : Ui).
Arguments VCache {Ui Hook Cache} _.
Arguments VConfigPtr {Ui Hook Cache}.
Arguments VDriver {Ui Hook Cache} _.
Arguments VHook {Ui Hook Cache} _.
Arguments VUi {Ui Hook Cache} _.

Class Externals : Type := {
  (* the [raw interface{}] handed to Prepare *)
  Raw : Type;
  (* packer.Ui, packer.Hook, packer.Cache *)
  Ui : Type;
  Hook : Type;
  Cache : Type;
  (* url.Parse: the parsed URL or the parse error *)
  url_Parse : string -> URL + error;
  (* URL.String, on the parsed pointer *)
  URL_String : URL -> string;
  (* os.Stat, through its error result only: None when the path exists *)
  os_Stat : string -> option error;
  (* strings.ToLower *)
  strings_ToLower : string -> string;
  (* exec.LookPath: the resolved path or the lookup error *)
  exec_LookPath : string -> string + error;
  (* Driver.Verify *)
  Driver_Verify : Driver -> option error;
  (* the private state of a multistep.BasicRunner, that of a fresh one,
     and what its Run and Cancel methods do to it (both are taken to
     return) *)
  RunnerState : Type;
  BasicRunner_zero : RunnerState;
  BasicRunner_Run :
    list Step -> gmap string (Value Ui Hook Cache) -> RunnerState -> RunnerState;
  BasicRunner_Cancel : RunnerState -> RunnerState
}.

(** [mapstructure.Decode(raw, &c)] for a config struct [C]: the struct as
    the decoder left it, and the decoder's error. *)
Class Decoder `{Externals} (C : Type) : Type :=
  mapstructure_Decode : Raw -> C -> C * option error.

(** Modelled from the spec: the [packer.Artifact] interface, declared
    outside these files.  The spec describes an artifact as, at minimum,
    an (output directory, VM name) pair.  The nil interface value is
    [None] in [option Artifact]. *)
Record Artifact : Type := mkArtifact {
  artifact_dir : string;
  artifact_name : string
}.

(** What [Prepare] returns as its [error]: nil ([None]), the decoder's
    error, or [&packer.MultiError{errs}]. *)
Inductive PrepareError : Type :=
| DecodeError (e : error)
| MultiError (errs : list error).

(** The loop over [supportedSchemes] with its [break]. *)
Fixpoint found_in (scheme : string) (supportedSchemes : list string) : bool :=
  match supportedSchemes with
  | [] => false
  | supported :: rest =>
      if decide (scheme = supported) then true else found_in scheme rest
  end.

(** ** What the two revisions share

    [type Builder struct { config config; driver Driver; runner
    multistep.Runner }] over the revision's [config] struct, and the
    methods whose text is the same in both files: [Cancel] and
    [newDriver]. *)
Section Shared.
Context `{Ext : Externals}.

(** [&multistep.BasicRunner{Steps: steps}] with its private state. *)
Record Runner : Type := BasicRunner {
  Steps : list Step;
  rstate : RunnerState
}.

Record Builder (C : Type) : Type := mkBuilder {
  b_config : C;
  b_driver : option Driver;     (* nil interface value: None *)
  b_runner : option Runner      (* nil interface value: None *)
}.
#[global] Arguments mkBuilder {C} _ _ _.
#[global] Arguments b_config {C} _.
#[global] Arguments b_driver {C} _.
#[global] Arguments b_runner {C} _.

Definition set_config {C} (f : C -> C) (b : Builder C) : Builder C :=
  mkBuilder (f (b_config b)) (b_driver b) (b_runner b).
Definition set_driver {C} (d : option Driver) (b : Builder C) : Builder C :=
  mkBuilder (b_config b) d (b_runner b).
Definition set_runner {C} (r : option Runner) (b : Builder C) : Builder C :=
  mkBuilder (b_config b) (b_driver b) r.

Definition getConfig {C} : M (Machine (Builder C)) C :=
  b ← getSelf; mret (b_config b).

(** [b.runner.Run(state)]: a method call on the interface value. *)
Definition runner_Run {C} (state : gmap string (Value Ui Hook Cache))
  : M (Machine (Builder C)) unit :=
  b ← getSelf;
  match b_runner b with
  | None => panic "invalid memory address or nil pointer dereference"
  | Some r =>
      emit (EvRunnerRun (Steps r));;
      modifySelf (set_runner
        (Some (BasicRunner (Steps r) (BasicRunner_Run (Steps r) state (rstate r)))))
  end.

(** [b.runner.Cancel()]: a method call on the interface value. *)
Definition runner_Cancel {C} : M (Machine (Builder C)) unit :=
  b ← getSelf;
  match b_runner b with
  | None => panic "invalid memory address or nil pointer dereference"
  | Some r =>
      emit EvRunnerCancel;;
      modifySelf (set_runner
        (Some (BasicRunner (Steps r) (BasicRunner_Cancel (rstate r)))))
  end.

Definition Cancel {C} : M (Machine (Builder C)) unit :=
  b ← getSelf;
  if decide (is_Some (b_runner b))
  then
    emit (EvLog "Cancelling the step runner...");;
    runner_Cancel
  else mret tt.

Definition newDriver {C} : M (Machine (Builder C)) (option Driver * option error) :=
  emit (EvLookPath "VBoxManage");;
  match exec_LookPath "VBoxManage" with
  | inr err => mret (None, Some err)
  | inl vboxmanagePath =>
      emit (EvLog ("VBoxManage path: " +:+ vboxmanagePath));;
      let driver := VBox42Driver vboxmanagePath in
      emit (EvVerify driver);;
      match Driver_Verify driver with
      | Some err => mret (None, Some err)
      | None => mret (Some driver, None)
      end
  end.

End Shared.

(** ** src/unnamed/part_000 *)
Module Iso.

Record config : Type := mkConfig {
  GuestOSType : string;
  ISOMD5 : string;
  ISOUrl : string;
  OutputDir : string;
  VMName : string
}.

Definition set_GuestOSType (v : string) (c : config) : config :=
  mkConfig v (ISOMD5 c) (ISOUrl c) (OutputDir c) (VMName c).
Definition set_ISOMD5 (v : string) (c : config) : config :=
  mkConfig (GuestOSType c) v (ISOUrl c) (OutputDir c) (VMName c).
Definition set_ISOUrl (v : string) (c : config) : config :=
  mkConfig (GuestOSType c) (ISOMD5 c) v (OutputDir c) (VMName c).
Definition set_OutputDir (v : string) (c : config) : config :=
  mkConfig (GuestOSType c) (ISOMD5 c) (ISOUrl c) v (VMName c).
Definition set_VMName (v : string) (c : config) : config :=
  mkConfig (GuestOSType c) (ISOMD5 c) (ISOUrl c) (OutputDir c) v.

Section Methods.
Context `{Ext : Externals} {Dec : Decoder config}.

Abbreviation Method := (M (Machine (Builder config))).

Definition Prepare (raw : Raw) : Method (option PrepareError) :=
  b ← getSelf;
  let '(decoded, derr) := mapstructure_Decode raw (b_config b) in
  modifySelf (set_config (λ _, decoded));;
  match derr with
  | Some err => mret (Some (DecodeError err))
  | None =>
  c ← getConfig;
  (if decide (GuestOSType c = "")
   then modifySelf (set_config (set_GuestOSType "Other")) else mret tt);;
  c ← getConfig;
  (if decide (OutputDir c = "")
   then modifySelf (set_config (set_OutputDir "virtualbox")) else mret tt);;
  c ← getConfig;
  (if decide (VMName c = "")
   then modifySelf (set_config (set_VMName "packer")) else mret tt);;
  let errs : list error := [] in
  c ← getConfig;
  errs ← (if decide (ISOMD5 c = "")
          then mret (go_append errs (errors_New "Due to large file sizes, an iso_md5 is required"))
          else modifySelf (set_config (set_ISOMD5 (strings_ToLower (ISOMD5 c))));;
               mret errs);
  c ← getConfig;
  errs ← (if decide (ISOUrl c = "")
          then mret (go_append errs (errors_New "An iso_url must be specified."))
          else
            '(url, errs) ←
              match url_Parse (ISOUrl c) with
              | inr err =>
                  mret (None, go_append errs (fmt_Errorf "iso_url is not a valid URL: " err))
              | inl url =>
                  let url := if decide (Scheme url = "")
                             then set_Scheme "file" url else url in
                  errs ← (if decide (Scheme url = "file")
                          then
                            c ← getConfig;
                            emit (EvStat (ISOUrl c));;
                            match os_Stat (ISOUrl c) with
                            | Some err =>
                                mret (go_append errs (fmt_Errorf "iso_url points to bad file: " err))
                            | None => mret errs
                            end
                          else
                            let supportedSchemes := ["file"; "http"; "https"] in
                            let scheme := strings_ToLower (Scheme url) in
                            let found := found_in scheme supportedSchemes in
                            if negb found
                            then mret (go_append errs (fmt_Errorf "Unsupported URL scheme in iso_url: " scheme))
                            else mret errs);
                  mret (Some url, errs)
              end;
            (if decide (length errs = 0)
             then match url with
                  | Some url => modifySelf (set_config (set_ISOUrl (URL_String url)))
                  | None => panic "invalid memory address or nil pointer dereference"
                  end
             else mret tt);;
            mret errs);
  '(driver, err) ← newDriver;
  modifySelf (set_driver driver);;
  let errs := match err with
              | Some err => go_append errs (fmt_Errorf "Failed creating VirtualBox driver: " err)
              | None => errs
              end in
  if decide (0 < length errs)      (* len(errs) > 0 *)
  then mret (Some (MultiError errs))
  else mret None
  end.

Definition Run (ui : Ui) (hook : Hook) (cache : Cache) : Method (option Artifact) :=
  let steps := [ stepDownloadISO;
                 stepPrepareOutputDir;
                 stepSuppressMessages;
                 stepCreateVM;
                 stepCreateDisk;
                 stepAttachISO ] in
  (* Setup the state bag *)
  b ← getSelf;
  let state : gmap string (Value Ui Hook Cache) := ∅ in
  let state := <["cache" := VCache cache]> state in
  let state := <["config" := VConfigPtr]> state in
  let state := <["driver" := VDriver (b_driver b)]> state in
  let state := <["hook" := VHook hook]> state in
  let state := <["ui" := VUi ui]> state in
  (* Run *)
  modifySelf (set_runner (Some (BasicRunner steps BasicRunner_zero)));;
  runner_Run state;;
  mret None.

End Methods.
End Iso.

(** ** src/builder/virtualbox/builder.go *)
Module Base.

Record config : Type := mkConfig {
  GuestOSType : string;
  OutputDir : string;
  VMName : string
}.

Definition set_GuestOSType (v : string) (c : config) : config :=
  mkConfig v (OutputDir c) (VMName c).
Definition set_OutputDir (v : string) (c : config) : config :=
  mkConfig (GuestOSType c) v (VMName c).
Definition set_VMName (v : string) (c : config) : config :=
  mkConfig (GuestOSType c) (OutputDir c) v.

Section Methods.
Context `{Ext : Externals} {Dec : Decoder config}.

Abbreviation Method := (M (Machine (Builder config))).

Definition Prepare (raw : Raw) : Method (option PrepareError) :=
  b ← getSelf;
  let '(decoded, derr) := mapstructure_Decode raw (b_config b) in
  modifySelf (set_config (λ _, decoded));;
  match derr with
  | Some err => mret (Some (DecodeError err))
  | None =>
  c ← getConfig;
  (if decide (GuestOSType c = "")
   then modifySelf (set_config (set_GuestOSType "Other")) else mret tt);;
  c ← getConfig;
  (if decide (OutputDir c = "")
   then modifySelf (set_config (set_OutputDir "virtualbox")) else mret tt);;
  c ← getConfig;
  (if decide (VMName c = "")
   then modifySelf (set_config (set_VMName "packer")) else mret tt);;
  let errs : list error := [] in
  '(driver, err) ← newDriver;
  modifySelf (set_driver driver);;
  let errs := match err with
              | Some err => go_append errs (fmt_Errorf "Failed creating VirtualBox driver: " err)
              | None => errs
              end in
  if decide (0 < length errs)
  then mret (Some (MultiError errs))
  else mret None
  end.

Definition Run (ui : Ui) (hook : Hook) (cache : Cache) : Method (option Artifact) :=
  let steps := [ stepPrepareOutputDir;
                 stepSuppressMessages;
                 stepCreateVM;
                 stepCreateDisk ] in
  (* Setup the state bag *)
  b ← getSelf;
  let state : gmap string (Value Ui Hook Cache) := ∅ in
  let state := <["cache" := VCache cache]> state in
  let state := <["config" := VConfigPtr]> state in
  let state := <["driver" := VDriver (b_driver b)]> state in
  let state := <["hook" := VHook hook]> state in
  let state := <["ui" := VUi ui]> state in
  (* Run *)
  modifySelf (set_runner (Some (BasicRunner steps BasicRunner_zero)));;
  runner_Run state;;
  mret None.

End Methods.
End Base.


(** ** What one call of [Prepare] amounts to

    The outcome of [Iso.Prepare], phase by phase, as functions of the
    decoded config: used to state and prove the properties below, and
    related to the method itself by [Prepare_decoded]. *)
Section IsoSummary.
Context `{Ext : Externals} {Dec : Decoder Iso.config}.
Import Iso.

Definition defaulted (c : config) : config :=
  mkConfig (if decide (GuestOSType c = "") then "Other" else GuestOSType c)
           (ISOMD5 c)
           (ISOUrl c)
           (if decide (OutputDir c = "") then "virtualbox" else OutputDir c)
           (if decide (VMName c = "") then "packer" else VMName c).

Definition md5_errs (c : config) : list error :=
  if decide (ISOMD5 c = "")
  then ["Due to large file sizes, an iso_md5 is required"]
  else [].

Definition md5_stored (c : config) : string :=
  if decide (ISOMD5 c = "") then "" else strings_ToLower (ISOMD5 c).

(** The parsed URL after the empty scheme was replaced by "file". *)
Definition effective (u : URL) : URL :=
  if decide (Scheme u = "") then set_Scheme "file" u else u.

Definition url_errs (c : config) : list error :=
  if decide (ISOUrl c = "") then ["An iso_url must be specified."]
  else match url_Parse (ISOUrl c) with
       | inr err => ["iso_url is not a valid URL: " +:+ err]
       | inl u =>
           if decide (Scheme (effective u) = "file")
           then match os_Stat (ISOUrl c) with
                | Some err => ["iso_url points to bad file: " +:+ err]
                | None => []
                end
           else if found_in (strings_ToLower (Scheme (effective u)))
                            ["file"; "http"; "https"]
                then []
                else ["Unsupported URL scheme in iso_url: "
                      +:+ strings_ToLower (Scheme (effective u))]
       end.

Definition url_events (c : config) : list Event :=
  if decide (ISOUrl c = "") then []
  else match url_Parse (ISOUrl c) with
       | inr _ => []
       | inl u => if decide (Scheme (effective u) = "file")
                  then [EvStat (ISOUrl c)] else []
       end.

Definition url_stored (c : config) : string :=
  if decide (ISOUrl c = "") then ""
  else match url_Parse (ISOUrl c) with
       | inr _ => ISOUrl c
       | inl u => if decide (md5_errs c ++ url_errs c = [])
                  then URL_String (effective u) else ISOUrl c
       end.

(** What [newDriver] returns. *)
Definition driver_outcome : option Driver * option error :=
  match exec_LookPath "VBoxManage" with
  | inr err => (None, Some err)
  | inl path => match Driver_Verify (VBox42Driver path) with
                | Some err => (None, Some err)
                | None => (Some (VBox42Driver path), None)
                end
  end.

Definition driver_made : option Driver := driver_outcome.1.

Definition driver_err : option error := driver_outcome.2.

Definition driver_errs : list error :=
  match driver_err with
  | Some err => ["Failed creating VirtualBox driver: " +:+ err]
  | None => []
  end.

Definition driver_events : list Event :=
  EvLookPath "VBoxManage" ::
  match exec_LookPath "VBoxManage" with
  | inr _ => []
  | inl path => [EvLog ("VBoxManage path: " +:+ path); EvVerify (VBox42Driver path)]
  end.

Definition prepared (c : config) : config :=
  mkConfig (GuestOSType (defaulted c)) (md5_stored c) (url_stored c)
           (OutputDir (defaulted c)) (VMName (defaulted c)).

Definition all_errs (c : config) : list error :=
  md5_errs c ++ url_errs c ++ driver_errs.

Definition verdict (errs : list error) : option PrepareError :=
  match errs with [] => None | _ => Some (MultiError errs) end.

End IsoSummary.

(** The outcome of [Base.Prepare] and of [Run] in the same way, and the
    vocabulary of the properties: repeated calls, kinds of events and of
    errors. *)
Section Outcomes.
Context `{Ext : Externals}.

Definition defaulted_base (c : Base.config) : Base.config :=
  Base.mkConfig
    (if decide (Base.GuestOSType c = "") then "Other" else Base.GuestOSType c)
    (if decide (Base.OutputDir c = "") then "virtualbox" else Base.OutputDir c)
    (if decide (Base.VMName c = "") then "packer" else Base.VMName c).

(** The state bag [Run] hands to the runner. *)
Definition state_bag (ui : Ui) (hook : Hook) (cache : Cache)
    (driver : option Driver) : gmap string (Value Ui Hook Cache) :=
  <["ui" := VUi ui]> (<["hook" := VHook hook]> (<["driver" := VDriver driver]>
    (<["config" := VConfigPtr]> (<["cache" := VCache cache]> ∅)))).

Definition iso_steps : list Step :=
  [stepDownloadISO; stepPrepareOutputDir; stepSuppressMessages;
   stepCreateVM; stepCreateDisk; stepAttachISO].

Definition base_steps : list Step :=
  [stepPrepareOutputDir; stepSuppressMessages; stepCreateVM; stepCreateDisk].

(** The receiver after [Run] installed and ran a fresh runner over [steps]. *)
Definition ran {C} (steps : list Step) (ui : Ui) (hook : Hook) (cache : Cache)
    (m : Machine (Builder C)) : Machine (Builder C) :=
  mkMachine
    (set_runner
       (Some (BasicRunner steps
                (BasicRunner_Run steps (state_bag ui hook cache (b_driver (self m)))
                                 BasicRunner_zero)))
       (self m))
    (trace m ++ [EvRunnerRun steps]).


(** Events that query the file system. *)
Definition stat_event (ev : Event) : bool :=
  match ev with
  | EvStat _ => true
  | _ => false
  end.

(** The error [Prepare] records for a scheme it does not support. *)
Definition unsupported_scheme_error (e : error) : bool :=
  String.prefix "Unsupported URL scheme in iso_url: " e.

End Outcomes.

(** ** A concrete world

    One instance of [Externals], used to run the methods on concrete
    inputs: Go's [strings.ToLower] on ASCII, [net/url]'s [Parse] and
    [String] ([Parse] returns the scheme in lower case), a file system
    given by the list of paths that exist, a PATH given by a map from
    tool names to resolved paths, and a decoder for flat maps of
    strings. *)
Module World.

Definition between (lo hi : nat) (c : ascii) : bool :=
  let n := nat_of_ascii c in ((lo <=? n) && (n <=? hi))%nat.

Definition lower (c : ascii) : ascii :=
  if between 65 90 c then ascii_of_nat (nat_of_ascii c + 32) else c.

Fixpoint ToLower (s : string) : string :=
  match s with
  | EmptyString => EmptyString
  | String c rest => String (lower c) (ToLower rest)
  end.

(** [s[i:]] *)
Definition from (i : nat) (s : string) : string :=
  String.substring i (String.length s - i) s.

Definition HasPrefix (s prefix : string) : bool := String.prefix prefix s.

Definition Contains (s substr : string) : bool :=
  match String.index 0 substr s with Some _ => true | None => false end.

Fixpoint LastIndexByte (s : string) (c : ascii) : option nat :=
  match s with
  | EmptyString => None
  | String d rest =>
      match LastIndexByte rest c with
      | Some i => Some (S i)
      | None => if decide (c = d) then Some 0 else None
      end
  end.

Definition dquote : string := String (ascii_of_nat 34) EmptyString.

(** *** net/url *)

Inductive encoding : Type :=
| encodePath
| encodeUserPassword
| encodeQueryComponent
| encodeFragment.

#[global] Instance encoding_eq_dec : EqDecision encoding.
Proof. solve_decision. Defined.

Definition ishex (c : ascii) : bool :=
  between 48 57 c || between 97 102 c || between 65 70 c.

Definition unhex (c : ascii) : nat :=
  let n := nat_of_ascii c in
  if between 48 57 c then n - 48
  else if between 97 102 c then n - 97 + 10
  else if between 65 70 c then n - 65 + 10
  else 0.

Definition EscapeError (s : string) : error :=
  "invalid URL escape " +:+ dquote +:+ s +:+ dquote.

Definition shouldEscape (c : ascii) (mode : encoding) : bool :=
  if between 65 90 c || between 97 122 c || between 48 57 c then false
  else if bool_decide (c ∈ ["-"; "_"; "."; "~"]%char) then false
  else if bool_decide (c ∈ ["$"; "&"; "+"; ","; "/"; ":"; ";"; "="; "?"; "@"]%char)
  then match mode with
       | encodePath => bool_decide (c = "?"%char)
       | encodeUserPassword =>
           bool_decide (c = "@"%char) || bool_decide (c = "/"%char)
           || bool_decide (c = ":"%char)
       | encodeQueryComponent => true
       | encodeFragment => false
       end
  else true.

Fixpoint unescape (s : string) (mode : encoding) : string + error :=
  match s with
  | EmptyString => inl EmptyString
  | String c rest =>
      if decide (c = "%"%char) then
        match rest with
        | String a (String b rest') =>
            if ishex a && ishex b then
              match unescape rest' mode with
              | inl t => inl (String (ascii_of_nat (unhex a * 16 + unhex b)) t)
              | inr err => inr err
              end
            else inr (EscapeError (String.substring 0 3 s))
        | _ => inr (EscapeError (String.substring 0 3 s))
        end
      else
        let c' := if decide (c = "+"%char ∧ mode = encodeQueryComponent)
                  then " "%char else c in
        match unescape rest mode with
        | inl t => inl (String c' t)
        | inr err => inr err
        end
  end.

Definition hexdigit (n : nat) : ascii :=
  default "0"%char (String.get n "0123456789ABCDEF").

Fixpoint escape (s : string) (mode : encoding) : string :=
  match s with
  | EmptyString => EmptyString
  | String c rest =>
      if shouldEscape c mode then
        if decide (c = " "%char ∧ mode = encodeQueryComponent)
        then String "+" (escape rest mode)
        else String "%" (String (hexdigit (nat_of_ascii c / 16))
                        (String (hexdigit (nat_of_ascii c mod 16))
                                (escape rest mode)))
      else String c (escape rest mode)
  end.

(** Maybe [rawurl] is of the form scheme:path; [i] is the position of
    the first byte of [rest] in [rawurl]. *)
Fixpoint getscheme_loop (rawurl : string) (i : nat) (rest : string)
  : (string * string) + error :=
  match rest with
  | EmptyString => inl (EmptyString, rawurl)
  | String c rest' =>
      if between 97 122 c || between 65 90 c
      then getscheme_loop rawurl (S i) rest'
      else if between 48 57 c || bool_decide (c ∈ ["+"; "-"; "."]%char)
      then (if decide (i = 0) then inl (EmptyString, rawurl)
            else getscheme_loop rawurl (S i) rest')
      else if decide (c = ":"%char)
      then (if decide (i = 0) then inr (errors_New "missing protocol scheme")
            else inl (String.substring 0 i rawurl, rest'))
      else inl (EmptyString, rawurl)
  end.

Definition getscheme (rawurl : string) : (string * string) + error :=
  getscheme_loop rawurl 0 rawurl.

(** Maybe [s] is of the form [t c u]: then [(t, c u)], or [(t, u)] when
    [cutc]; else [(s, "")]. *)
Definition split (s c : string) (cutc : bool) : string * string :=
  match String.index 0 c s with
  | None => (s, EmptyString)
  | Some i =>
      if cutc then (String.substring 0 i s, from (i + String.length c) s)
      else (String.substring 0 i s, from i s)
  end.

Definition parseAuthority (authority : string)
  : (option Userinfo * string) + error :=
  match LastIndexByte authority "@" with
  | None => inl (None, authority)
  | Some i =>
      let userinfo := String.substring 0 i authority in
      let host := from (S i) authority in
      if negb (Contains userinfo ":") then
        match unescape userinfo encodeUserPassword with
        | inr err => inr err
        | inl userinfo => inl (Some (mkUserinfo userinfo None), host)
        end
      else
        let '(username, password) := split userinfo ":" true in
        match unescape username encodeUserPassword with
        | inr err => inr err
        | inl username =>
            match unescape password encodeUserPassword with
            | inr err => inr err
            | inl password =>
                inl (Some (mkUserinfo username (Some password)), host)
            end
        end
  end.

Definition url_Error (op url : string) (err : error) : error :=
  op +:+ " " +:+ url +:+ ": " +:+ err.

(** [parse(rawurl, false)]; the scheme is stored in lower case
    ([url.Scheme = strings.ToLower(url.Scheme)]). *)
Definition parse (rawurl : string) : URL + error :=
  let zero := mkURL "" "" None "" "" "" "" in
  if decide (rawurl = "*") then inl (mkURL "" "" None "" "*" "" "")
  else
    match getscheme rawurl with
    | inr err => inr (url_Error "parse" rawurl err)
    | inl (scheme, rest) =>
        let scheme := ToLower scheme in
        let '(rest, rawquery) := split rest "?" true in
        if negb (HasPrefix rest "/") && negb (bool_decide (scheme = ""))
        then inl (mkURL scheme rest None "" "" rawquery "")
        else
          let authority_part :=
            if (negb (bool_decide (scheme = "")) || negb (HasPrefix rest "///"))
               && HasPrefix rest "//"
            then
              let '(authority, rest) := split (from 2 rest) "/" false in
              match parseAuthority authority with
              | inr err => inr err
              | inl (user, host) =>
                  if Contains host "%"
                  then inr (errors_New "hexadecimal escape in host")
                  else inl (user, host, rest)
              end
            else inl (None, EmptyString, rest) in
          match authority_part with
          | inr err => inr (url_Error "parse" rawurl err)
          | inl (user, host, rest) =>
              match unescape rest encodePath with
              | inr err => inr (url_Error "parse" rawurl err)
              | inl path => inl (mkURL scheme "" user host path rawquery "")
              end
          end
    end.

Definition Parse (rawurl : string) : URL + error :=
  (* Cut off #frag *)
  let '(u, frag) := split rawurl "#" true in
  match parse u with
  | inr err => inr err
  | inl url =>
      if decide (frag = "") then inl url
      else
        match unescape frag encodeFragment with
        | inr err => inr (url_Error "parse" rawurl err)
        | inl fragment =>
            inl (mkURL (Scheme url) (Opaque url) (User url) (Host url)
                       (Path url) (RawQuery url) fragment)
        end
  end.

Definition Userinfo_String (u : Userinfo) : string :=
  let s := escape (username u) encodeUserPassword in
  match password u with
  | Some p => s +:+ ":" +:+ escape p encodeUserPassword
  | None => s
  end.

Definition String_ (u : URL) : string :=
  let buf := "" in
  let buf := if decide (Scheme u = "") then buf else buf +:+ Scheme u +:+ ":" in
  let buf :=
    if decide (Opaque u = "") then
      let buf :=
        if bool_decide (Scheme u = "") && bool_decide (Host u = "")
           && bool_decide (User u = None)
        then buf
        else
          let buf := buf +:+ "//" in
          let buf := match User u with
                     | Some ui => buf +:+ Userinfo_String ui +:+ "@"
                     | None => buf
                     end in
          buf +:+ Host u in
      buf +:+ escape (Path u) encodePath
    else buf +:+ Opaque u in
  let buf := if decide (RawQuery u = "") then buf else buf +:+ "?" +:+ RawQuery u in
  let buf := if decide (Fragment u = "") then buf
             else buf +:+ "#" +:+ escape (Fragment u) encodeFragment in
  buf.

(** *** os, os/exec *)

(** The machine the builder runs on. *)
Record System : Type := mkSystem {
  files : list string;            (* the paths that exist *)
  tools : gmap string string;     (* executables found on the PATH *)
  verify : option error           (* what the driver's Verify returns *)
}.

Definition Stat (sys : System) (name : string) : option error :=
  if decide (name ∈ files sys) then None
  else Some ("stat " +:+ name +:+ ": no such file or directory").

Definition LookPath (sys : System) (file : string) : string + error :=
  match tools sys !! file with
  | Some path => inl path
  | None =>
      inr ("exec: " +:+ dquote +:+ file +:+ dquote
           +:+ ": executable file not found in $PATH")
  end.

(** *** multistep: a runner that only remembers whether it was cancelled *)

Definition runner_Run (steps : list Step)
  (state : gmap string (Value unit unit unit)) (cancelled : bool) : bool :=
  cancelled.

Definition runner_Cancel (cancelled : bool) : bool := true.

(** *** mapstructure: flat maps whose values are strings or numbers *)

Inductive RawValue : Type :=
| RString (s : string)
| RInt (n : Z).

Definition decode_string (raw : gmap string RawValue) (name : string)
  (current : string) : string + error :=
  match raw !! name with
  | None => inl current
  | Some (RString s) => inl s
  | Some (RInt _) =>
      inr ("'" +:+ name +:+ "' expected type 'string', got unconvertible type 'int'")
  end.

Definition world (sys : System) : Externals := {|
  Raw := gmap string RawValue;
  Ui := unit;
  Hook := unit;
  Cache := unit;
  url_Parse := Parse;
  URL_String := String_;
  os_Stat := Stat sys;
  strings_ToLower := ToLower;
  exec_LookPath := LookPath sys;
  Driver_Verify := λ _, verify sys;
  RunnerState := bool;
  BasicRunner_zero := false;
  BasicRunner_Run := runner_Run;
  BasicRunner_Cancel := runner_Cancel
|}.

(** Fields are decoded in declaration order; the first field that cannot
    be decoded stops the decoder, the fields before it stay written. *)
Definition decode_iso (sys : System) : @Decoder (world sys) Iso.config :=
  λ raw c,
  match decode_string raw "guest_os_type" (Iso.GuestOSType c) with
  | inr err => (c, Some err)
  | inl v =>
  let c := Iso.set_GuestOSType v c in
  match decode_string raw "iso_md5" (Iso.ISOMD5 c) with
  | inr err => (c, Some err)
  | inl v =>
  let c := Iso.set_ISOMD5 v c in
  match decode_string raw "iso_url" (Iso.ISOUrl c) with
  | inr err => (c, Some err)
  | inl v =>
  let c := Iso.set_ISOUrl v c in
  match decode_string raw "output_directory" (Iso.OutputDir c) with
  | inr err => (c, Some err)
  | inl v =>
  let c := Iso.set_OutputDir v c in
  match decode_string raw "vm_name" (Iso.VMName c) with
  | inr err => (c, Some err)
  | inl v => (Iso.set_VMName v c, None)
  end end end end end.

Definition decode_base (sys : System) : @Decoder (world sys) Base.config :=
  λ raw c,
  match decode_string raw "guest_os_type" (Base.GuestOSType c) with
  | inr err => (c, Some err)
  | inl v =>
  let c := Base.set_GuestOSType v c in
  match decode_string raw "output_directory" (Base.OutputDir c) with
  | inr err => (c, Some err)
  | inl v =>
  let c := Base.set_OutputDir v c in
  match decode_string raw "vm_name" (Base.VMName c) with
  | inr err => (c, Some err)
  | inl v => (Base.set_VMName v c, None)
  end end end.

(** A zero-valued [Builder] that has performed nothing yet. *)
Definition fresh_iso (sys : System) : Machine (@Builder (world sys) Iso.config) :=
  mkMachine (mkBuilder (Iso.mkConfig "" "" "" "" "") None None) [].

Definition fresh_base (sys : System) : Machine (@Builder (world sys) Base.config) :=
  mkMachine (mkBuilder (Base.mkConfig "" "" "") None None) [].

(** [Prepare], [Run] and [Cancel] on that machine. *)
Definition Prepare (sys : System) := @Iso.Prepare (world sys) (decode_iso sys).
Definition Run (sys : System) := @Iso.Run (world sys).
Definition Cancel (sys : System) := @Cancel (world sys) Iso.config.
Definition Prepare_base (sys : System) := @Base.Prepare (world sys) (decode_base sys).
Definition Run_base (sys : System) := @Base.Run (world sys).

(** A machine with VirtualBox installed and one ISO image on disk. *)
Definition host : System :=
  mkSystem ["/tmp/foo.iso"] {[ "VBoxManage" := "/usr/bin/VBoxManage" ]} None.

(** A machine without VirtualBox. *)
Definition bare : System := mkSystem ["/tmp/foo.iso"] ∅ None.

(** Raw specs: the empty one, a bare path to the image, the same image as a file URL,
    an image that is not there (bare path, and upper-case scheme), and a
    spec that names everything but the image. *)
Definition spec_empty : gmap string RawValue := ∅.

Definition spec_local : gmap string RawValue :=
  {[ "iso_url" := RString "/tmp/foo.iso"; "iso_md5" := RString "ABCDEF" ]}.

Definition spec_file_url : gmap string RawValue :=
  {[ "iso_url" := RString "file:///tmp/foo.iso"; "iso_md5" := RString "ABCDEF" ]}.

Definition spec_missing : gmap string RawValue :=
  {[ "iso_url" := RString "/tmp/missing.iso"; "iso_md5" := RString "ABCDEF" ]}.

Definition spec_upper : gmap string RawValue :=
  {[ "iso_url" := RString "FILE:///tmp/missing.iso"; "iso_md5" := RString "ABCDEF" ]}.

Definition spec_named : gmap string RawValue :=
  {[ "guest_os_type" := RString "Linux"; "output_directory" := RString "out";
     "vm_name" := RString "vm"; "iso_md5" := RString "abcdef" ]}.

(** More raw specs: a remote image, a scheme the builder does not
    support, a URL that does not parse, and a spec whose vm_name is a
    number. *)
Definition spec_http : gmap string RawValue :=
  {[ "iso_url" := RString "http://example.com/os.iso"; "iso_md5" := RString "ABCDEF" ]}.

Definition spec_ftp : gmap string RawValue :=
  {[ "iso_url" := RString "FTP://example.com/os.iso"; "iso_md5" := RString "ABCDEF" ]}.

Definition spec_bad_url : gmap string RawValue :=
  {[ "iso_url" := RString ":foo"; "iso_md5" := RString "ABCDEF" ]}.

Definition spec_bad_type : gmap string RawValue :=
  {[ "vm_name" := RInt 5; "iso_md5" := RString "ABCDEF" ]}.

(** A spec that holds nothing but a number for vm_name, and one that
    names the image and no checksum. *)
Definition spec_number : gmap string RawValue :=
  {[ "vm_name" := RInt 5 ]}.

Definition spec_url_only : gmap string RawValue :=
  {[ "iso_url" := RString "/tmp/foo.iso" ]}.

(** The builder after [Prepare] accepted [spec_local] on [host]. *)
Definition prepared_local : Machine (@Builder (world host) Iso.config) :=
  mkMachine
    (mkBuilder
       (Iso.mkConfig "Other" "abcdef" "file:///tmp/foo.iso" "virtualbox" "packer")
       (Some (VBox42Driver "/usr/bin/VBoxManage")) None)
    [EvStat "/tmp/foo.iso"; EvLookPath "VBoxManage";
     EvLog "VBoxManage path: /usr/bin/VBoxManage";
     EvVerify (VBox42Driver "/usr/bin/VBoxManage")].


End World.

(** ** Running the methods *)

Lemma bind_run {S A B} (m : M S A) (k : A -> M S B) (s : S) (a : A) (s' : S) :
  m s = Done a s' -> (m ≫= k) s = k a s'.
Proof. intros H. unfold mbind, M_bind. by rewrite H. Qed.

(** One step of a method whose first command runs by computation. *)
Ltac run := erewrite bind_run by reflexivity; cbn beta iota.

Ltac split_on_tests :=
  repeat match goal with
         | |- context [decide ?P] => destruct (decide P); cbn
         | |- context [url_Parse ?s] => destruct (url_Parse s); cbn
         | |- context [os_Stat ?s] => destruct (os_Stat s); cbn
         | |- context [found_in ?s ?l] => destruct (found_in s l); cbn
         end.

(** One step whose first command branches: its result [a] and final
    machine [s] are given, and checked branch by branch. *)
Ltac run_to a s :=
  rewrite (bind_run _ _ _ a s);
  [ cbn beta iota
  | repeat match goal with x := _ |- _ => subst x end;
    cbv beta iota zeta delta
      [mbind M_bind mret M_ret modifySelf getConfig getSelf emit panic
       set_config go_append fmt_Errorf errors_New
       md5_errs md5_stored url_errs url_events url_stored effective];
    cbn;
    split_on_tests; rewrite ?app_nil_r; simplify_eq; try reflexivity;
    try (exfalso; simpl in *; congruence) ].

Section SharedFacts.
Context `{Ext : Externals}.

Lemma newDriver_run {C} (m : Machine (Builder C)) :
  newDriver m =
    Done (driver_made, driver_err)
         (mkMachine (self m) (trace m ++ driver_events)).
Proof.
  unfold newDriver, driver_made, driver_err, driver_outcome, driver_events,
    emit, go_append, mbind, M_bind, mret, M_ret.
  cbn. destruct (exec_LookPath "VBoxManage") as [path|err]; cbn.
  - destruct (Driver_Verify (VBox42Driver path)); cbn;
      by rewrite <- !app_assoc.
  - done.
Qed.

Lemma verdict_nil (errs : list error) : verdict errs = None <-> errs = [].
Proof. by destruct errs. Qed.

Lemma verdict_failed (errs : list error) (e : error) :
  e ∈ errs -> verdict errs = Some (MultiError errs).
Proof. destruct errs; [by intros ?%elem_of_nil | done]. Qed.

(** [Cancel] never panics: its nil test guards the method call. *)
Lemma Cancel_run {C} (m : Machine (Builder C)) :
  Cancel m =
    Done tt
      match b_runner (self m) with
      | None => m
      | Some r =>
          mkMachine
            (set_runner (Some (BasicRunner (Steps r) (BasicRunner_Cancel (rstate r))))
                        (self m))
            (trace m ++ [EvLog "Cancelling the step runner..."; EvRunnerCancel])
      end.
Proof.
  unfold Cancel, runner_Cancel. run.
  destruct m as [[c d [r|]] tr]; cbn [self b_runner];
    case_decide as Hr; try (by destruct Hr); try (by destruct Hr; eexists).
  - run. run. cbn [self b_runner]. run.
    unfold modifySelf, go_append; cbn. by rewrite <- app_assoc.
  - done.
Qed.

End SharedFacts.

Section IsoFacts.
Context `{Ext : Externals} {Dec : Decoder Iso.config}.
Import Iso.

(** A raw spec the decoder rejects: [Prepare] returns the decoder's error
    right away, with the config as the decoder left it. *)
Lemma Prepare_undecoded (raw : Raw) (m : Machine (Builder config))
    (c : config) (err : error) :
  mapstructure_Decode raw (b_config (self m)) = (c, Some err) ->
  Prepare raw m =
    Done (Some (DecodeError err))
         (mkMachine (mkBuilder c (b_driver (self m)) (b_runner (self m)))
                    (trace m)).
Proof.
  intros Hdec. unfold Prepare. run. rewrite Hdec. by run.
Qed.

(** A raw spec the decoder accepts: every check runs, whatever the
    earlier ones found. *)
Lemma Prepare_decoded (raw : Raw) (m : Machine (Builder config)) (c : config) :
  mapstructure_Decode raw (b_config (self m)) = (c, None) ->
  Prepare raw m =
    Done (verdict (all_errs c))
         (mkMachine (mkBuilder (prepared c) driver_made (b_runner (self m)))
                    (trace m ++ url_events c ++ driver_events)).
Proof.
  intros Hdec. destruct m as [[c0 d0 r0] tr]. cbn in Hdec.
  unfold Prepare.
  run. cbn [self b_config]. rewrite Hdec. run. clear Hdec.
  destruct c as [g md5 url od vm].
  unfold prepared, defaulted. cbn [GuestOSType OutputDir VMName].
  set (g' := if decide (g = "") then "Other" else g).
  set (od' := if decide (od = "") then "virtualbox" else od).
  set (vm' := if decide (vm = "") then "packer" else vm).
  (* the three defaults *)
  run. run_to tt (mkMachine (mkBuilder (mkConfig g' md5 url od vm) d0 r0) tr).
  run. run_to tt (mkMachine (mkBuilder (mkConfig g' md5 url od' vm) d0 r0) tr).
  run. run_to tt (mkMachine (mkBuilder (mkConfig g' md5 url od' vm') d0 r0) tr).
  clearbody g' od' vm'.
  set (c := mkConfig g md5 url od vm).
  (* iso_md5 *)
  run.
  run_to (md5_errs c)
         (mkMachine (mkBuilder (mkConfig g' (md5_stored c) url od' vm') d0 r0) tr).
  (* iso_url *)
  run.
  run_to (md5_errs c ++ url_errs c)
         (mkMachine
            (mkBuilder (mkConfig g' (md5_stored c) (url_stored c) od' vm') d0 r0)
            (tr ++ url_events c)).
  (* the driver *)
  rewrite (bind_run _ _ _ _ _ (newDriver_run _)). cbn beta iota.
  run. unfold all_errs, driver_errs, go_append, fmt_Errorf, mret, M_ret.
  cbn [self trace b_config b_runner b_driver set_driver].
  rewrite <- app_assoc.
  destruct driver_err; rewrite ?app_nil_r, ?app_assoc.
  - case_decide; [| rewrite length_app in *; simpl in *; lia].
    destruct (_ ++ _) eqn:E; [by destruct (md5_errs _ ++ url_errs _)|done].
  - unfold verdict. destruct (_ ++ _); case_decide; simpl in *; try done; lia.
Qed.

(** [Prepare] never panics: [url] is only dereferenced when no error was
    recorded, and then it was parsed. *)
Lemma Prepare_returns (raw : Raw) (m : Machine (Builder config)) :
  exists r m', Prepare raw m = Done r m'.
Proof.
  destruct (mapstructure_Decode raw (b_config (self m))) as [c [err|]] eqn:Hdec.
  - rewrite (Prepare_undecoded _ _ _ _ Hdec). eauto.
  - rewrite (Prepare_decoded _ _ _ Hdec). eauto.
Qed.

Lemma Run_run (ui : Ui) (hook : Hook) (cache : Cache) (m : Machine (Builder config)) :
  Run ui hook cache m = Done None (ran iso_steps ui hook cache m).
Proof. unfold Run. run. run. run. reflexivity. Qed.

End IsoFacts.

Section BaseFacts.
Context `{Ext : Externals} {Dec : Decoder Base.config}.
Import Base.

Lemma Prepare_base_undecoded (raw : Raw) (m : Machine (Builder config))
    (c : config) (err : error) :
  mapstructure_Decode raw (b_config (self m)) = (c, Some err) ->
  Prepare raw m =
    Done (Some (DecodeError err))
         (mkMachine (mkBuilder c (b_driver (self m)) (b_runner (self m)))
                    (trace m)).
Proof.
  intros Hdec. unfold Prepare. run. rewrite Hdec. by run.
Qed.

Lemma Prepare_base_decoded (raw : Raw) (m : Machine (Builder config)) (c : config) :
  mapstructure_Decode raw (b_config (self m)) = (c, None) ->
  Prepare raw m =
    Done (verdict driver_errs)
         (mkMachine (mkBuilder (defaulted_base c) driver_made (b_runner (self m)))
                    (trace m ++ driver_events)).
Proof.
  intros Hdec. destruct m as [[c0 d0 r0] tr]. cbn in Hdec.
  unfold Prepare.
  run. cbn [self b_config]. rewrite Hdec. run. clear Hdec.
  destruct c as [g od vm].
  unfold defaulted_base. cbn [GuestOSType OutputDir VMName].
  set (g' := if decide (g = "") then "Other" else g).
  set (od' := if decide (od = "") then "virtualbox" else od).
  set (vm' := if decide (vm = "") then "packer" else vm).
  run. run_to tt (mkMachine (mkBuilder (mkConfig g' od vm) d0 r0) tr).
  run. run_to tt (mkMachine (mkBuilder (mkConfig g' od' vm) d0 r0) tr).
  run. run_to tt (mkMachine (mkBuilder (mkConfig g' od' vm') d0 r0) tr).
  rewrite (bind_run _ _ _ _ _ (newDriver_run _)). cbn beta iota.
  run. unfold driver_errs, go_append, fmt_Errorf, mret, M_ret.
  cbn [self trace b_config b_runner b_driver set_driver].
  by destruct driver_err.
Qed.

Lemma Run_base_run (ui : Ui) (hook : Hook) (cache : Cache)
    (m : Machine (Builder config)) :
  Run ui hook cache m = Done None (ran base_steps ui hook cache m).
Proof. unfold Run. run. run. run. reflexivity. Qed.

End BaseFacts.

(** ** Properties of the builder *)
Section Properties.
Context `{Ext : Externals} {DecI : Decoder Iso.config} {DecB : Decoder Base.config}.

Lemma driver_events_no_stat : existsb stat_event driver_events = false.
Proof. unfold driver_events. by destruct (exec_LookPath "VBoxManage"). Qed.

Lemma driver_errs_supported (e : error) :
  e ∈ driver_errs -> unsupported_scheme_error e = false.
Proof.
  unfold driver_errs. destruct driver_err; [|by intros ?%elem_of_nil].
  by intros ->%list_elem_of_singleton.
Qed.

Lemma md5_errs_supported (c : Iso.config) (e : error) :
  e ∈ md5_errs c -> unsupported_scheme_error e = false.
Proof.
  unfold md5_errs. case_decide; [|by intros ?%elem_of_nil].
  by intros ->%list_elem_of_singleton.
Qed.


(** C1, as amended: in both revisions [Run] installs a [BasicRunner] over
    its fixed list of steps, runs it on the state bag, and returns the nil
    artifact, whatever the receiver and whatever the runner did.  It never
    panics. *)
Theorem Run_returns_nil_artifact (ui : Ui) (hook : Hook) (cache : Cache) :
  (forall m : Machine (Builder Iso.config),
     Iso.Run ui hook cache m = Done None (ran iso_steps ui hook cache m)) /\
  (forall m : Machine (Builder Base.config),
     Base.Run ui hook cache m = Done None (ran base_steps ui hook cache m)).
Proof. split; intros m; [apply Run_run | apply Run_base_run]. Qed.


(** C5, as amended: for a raw spec that the decoder accepts and whose
    iso_url is a local path (no scheme, or the scheme "file") that
    [os.Stat] does not find, [Prepare] returns a [MultiError] that holds
    the bad-file message (after the iso_md5 message, if any), and the
    stat is the first event.  [Prepare] does not stop there: it looks the
    tool up on the PATH right after it; a tool that is found is logged,
    constructed and verified; a failed lookup or verification leaves the
    driver nil and adds its message at the end of the same list, and a
    verified driver is stored.  The iso_url is left as supplied. *)
Theorem missing_file_found_before_driver_lookup
    (raw : Raw) (m : Machine (Builder Iso.config)) (c : Iso.config)
    (u : URL) (err : error) :
  mapstructure_Decode raw (b_config (self m)) = (c, None) ->
  Iso.ISOUrl c ≠ "" ->
  url_Parse (Iso.ISOUrl c) = inl u ->
  Scheme u = "" \/ Scheme u = "file" ->
  os_Stat (Iso.ISOUrl c) = Some err ->
  exists errs m' bad,
    Iso.Prepare raw m = Done (Some (MultiError errs)) m' /\
    bad = (if decide (Iso.ISOMD5 c = "")
           then ["Due to large file sizes, an iso_md5 is required"] else [])
          ++ ["iso_url points to bad file: " +:+ err] /\
    Iso.ISOUrl (b_config (self m')) = Iso.ISOUrl c /\
    match exec_LookPath "VBoxManage" with
    | inr e =>
        errs = bad ++ ["Failed creating VirtualBox driver: " +:+ e] /\
        b_driver (self m') = None /\
        trace m' = trace m ++ [EvStat (Iso.ISOUrl c); EvLookPath "VBoxManage"]
    | inl path =>
        trace m' = trace m ++ [EvStat (Iso.ISOUrl c); EvLookPath "VBoxManage";
                               EvLog ("VBoxManage path: " +:+ path);
                               EvVerify (VBox42Driver path)] /\
        match Driver_Verify (VBox42Driver path) with
        | Some e =>
            errs = bad ++ ["Failed creating VirtualBox driver: " +:+ e] /\
            b_driver (self m') = None
        | None =>
            errs = bad /\
            b_driver (self m') = Some (VBox42Driver path)
        end
    end.
Proof.
  intros Hdec Hurl Hparse Hscheme Hstat.
  rewrite (Prepare_decoded _ _ _ Hdec).
  assert (Hfile : Scheme (effective u) = "file").
  { unfold effective. destruct Hscheme as [Hs|Hs]; rewrite Hs; by case_decide. }
  assert (Herrs : url_errs c = ["iso_url points to bad file: " +:+ err]).
  { unfold url_errs. rewrite decide_False, Hparse, decide_True, Hstat by done. done. }
  assert (Hevs : url_events c = [EvStat (Iso.ISOUrl c)]).
  { unfold url_events. by rewrite decide_False, Hparse, decide_True. }
  assert (Hkept : url_stored c = Iso.ISOUrl c).
  { unfold url_stored. rewrite decide_False, Hparse, Herrs by done.
    rewrite decide_False; [done|]. by destruct (md5_errs c). }
  assert (Hin : "iso_url points to bad file: " +:+ err ∈ all_errs c).
  { unfold all_errs. rewrite Herrs, !elem_of_app, list_elem_of_singleton. auto. }
  rewrite (verdict_failed _ _ Hin).
  do 3 eexists. split; [reflexivity|]. split; [reflexivity|]. split; [exact Hkept|].
  cbn [self trace b_driver]. rewrite Hevs.
  unfold all_errs, driver_errs, driver_err, driver_made, driver_outcome,
    driver_events, md5_errs. rewrite Herrs.
  destruct (exec_LookPath "VBoxManage") as [path|e]; cbn.
  - destruct (Driver_Verify (VBox42Driver path)) as [e|]; cbn;
      by rewrite ?app_nil_r, <- ?app_assoc.
  - by rewrite <- ?app_assoc.
Qed.

(** C6, as amended: for a raw spec that the decoder accepts, an empty
    iso_md5 in the decoded config makes [Prepare] return a [MultiError]
    that holds the iso_md5 message, and a non-empty one is stored as
    [strings.ToLower] of the decoded value (whether or not [Prepare]
    succeeds).  The decoded config is the one the builder held with the
    fields of the spec written over it. *)
Theorem iso_md5_required_and_lowercased
    (raw : Raw) (m : Machine (Builder Iso.config)) (c : Iso.config) :
  mapstructure_Decode raw (b_config (self m)) = (c, None) ->
  exists r m',
    Iso.Prepare raw m = Done r m' /\
    (Iso.ISOMD5 c = "" ->
     exists errs, r = Some (MultiError errs) /\
                  "Due to large file sizes, an iso_md5 is required" ∈ errs) /\
    (Iso.ISOMD5 c ≠ "" ->
     Iso.ISOMD5 (b_config (self m')) = strings_ToLower (Iso.ISOMD5 c)).
Proof.
  intros Hdec. rewrite (Prepare_decoded _ _ _ Hdec). do 2 eexists.
  split; [done|]. cbn [self b_config prepared Iso.ISOMD5]. unfold md5_stored. split.
  - intros Hmd5. unfold all_errs, md5_errs. rewrite decide_True by done.
    eexists. split; [done|]. apply list_elem_of_here.
  - intros Hmd5. by rewrite decide_False.
Qed.

(** C7, as amended: in both revisions, for a raw spec that the decoder
    accepts, [Prepare] stores "Other", "virtualbox" and "packer" for an
    empty guest_os_type, output_directory and vm_name, keeps a non-empty
    value as supplied, and so leaves none of the three empty. *)
Theorem Prepare_applies_defaults :
  (forall (raw : Raw) (m : Machine (Builder Iso.config)) (c : Iso.config),
     mapstructure_Decode raw (b_config (self m)) = (c, None) ->
     exists r m',
       Iso.Prepare raw m = Done r m' /\
       Iso.GuestOSType (b_config (self m'))
         = (if decide (Iso.GuestOSType c = "") then "Other" else Iso.GuestOSType c) /\
       Iso.OutputDir (b_config (self m'))
         = (if decide (Iso.OutputDir c = "") then "virtualbox" else Iso.OutputDir c) /\
       Iso.VMName (b_config (self m'))
         = (if decide (Iso.VMName c = "") then "packer" else Iso.VMName c) /\
       Iso.GuestOSType (b_config (self m')) ≠ "" /\
       Iso.OutputDir (b_config (self m')) ≠ "" /\
       Iso.VMName (b_config (self m')) ≠ "") /\
  (forall (raw : Raw) (m : Machine (Builder Base.config)) (c : Base.config),
     mapstructure_Decode raw (b_config (self m)) = (c, None) ->
     exists r m',
       Base.Prepare raw m = Done r m' /\
       Base.GuestOSType (b_config (self m'))
         = (if decide (Base.GuestOSType c = "") then "Other" else Base.GuestOSType c) /\
       Base.OutputDir (b_config (self m'))
         = (if decide (Base.OutputDir c = "") then "virtualbox" else Base.OutputDir c) /\
       Base.VMName (b_config (self m'))
         = (if decide (Base.VMName c = "") then "packer" else Base.VMName c) /\
       Base.GuestOSType (b_config (self m')) ≠ "" /\
       Base.OutputDir (b_config (self m')) ≠ "" /\
       Base.VMName (b_config (self m')) ≠ "").
Proof.
  split; intros raw m c Hdec.
  - rewrite (Prepare_decoded _ _ _ Hdec). do 2 eexists. split; [done|].
    cbn. repeat split; by repeat case_decide.
  - rewrite (Prepare_base_decoded _ _ _ Hdec). do 2 eexists. split; [done|].
    cbn. repeat split; by repeat case_decide.
Qed.


(** C9, as amended: when [Prepare] returns a [MultiError] the stored
    config has nevertheless been changed in place: the three defaults are
    applied and a non-empty iso_md5 is lower-cased (iso_url is left as
    decoded whenever iso_md5 or iso_url is empty).  The stored config
    differs from the decoded input exactly when one of these changed a
    field: it is equal to it when the three names were supplied, the
    checksum is empty or already lower-case, and iso_url was not
    rewritten. *)
Theorem failed_Prepare_keeps_its_changes
    (raw : Raw) (m m' : Machine (Builder Iso.config)) (c : Iso.config)
    (errs : list error) :
  mapstructure_Decode raw (b_config (self m)) = (c, None) ->
  Iso.Prepare raw m = Done (Some (MultiError errs)) m' ->
  Iso.GuestOSType (b_config (self m'))
    = (if decide (Iso.GuestOSType c = "") then "Other" else Iso.GuestOSType c) /\
  Iso.OutputDir (b_config (self m'))
    = (if decide (Iso.OutputDir c = "") then "virtualbox" else Iso.OutputDir c) /\
  Iso.VMName (b_config (self m'))
    = (if decide (Iso.VMName c = "") then "packer" else Iso.VMName c) /\
  Iso.ISOMD5 (b_config (self m'))
    = (if decide (Iso.ISOMD5 c = "") then "" else strings_ToLower (Iso.ISOMD5 c)) /\
  (Iso.ISOMD5 c = "" \/ Iso.ISOUrl c = "" ->
   Iso.ISOUrl (b_config (self m')) = Iso.ISOUrl c) /\
  (b_config (self m') = c <->
   Iso.GuestOSType c ≠ "" /\ Iso.OutputDir c ≠ "" /\ Iso.VMName c ≠ "" /\
   (Iso.ISOMD5 c = "" \/ strings_ToLower (Iso.ISOMD5 c) = Iso.ISOMD5 c) /\
   Iso.ISOUrl (b_config (self m')) = Iso.ISOUrl c).
Proof.
  intros Hdec Hrun. rewrite (Prepare_decoded _ _ _ Hdec) in Hrun.
  injection Hrun as _ <-. cbn [self b_config].
  destruct c as [g md5 url od vm].
  unfold prepared, defaulted, md5_stored, url_stored, md5_errs; cbn.
  split_and!; try done.
  - intros [->| ->]; [|by rewrite decide_True].
    case_decide; [done|]. destruct (url_Parse url); [|done].
    rewrite (decide_True (P := "" = "")) by done. by rewrite decide_False.
  - split.
    + intros [= Hg Hmd5 Hu Ho Hv]. rewrite Hu.
      repeat case_decide; subst; split_and!; auto; done.
    + intros (Hg & Ho & Hv & Hmd5 & Hu). rewrite Hu. clear Hu.
      f_equal; case_decide; try done. by destruct Hmd5.
Qed.

(** C10, as amended: for a raw spec that the decoder accepts and whose
    iso_url parses, a scheme whose lower-casing is "file", "http" or
    "https" never yields the unsupported-scheme error, whatever its case;
    [os.Stat] is called exactly when the scheme [url.Parse] returned is
    empty or is the string "file", and then a file that [os.Stat] does
    not find makes [Prepare] fail with the bad-file message.  So when
    [url.Parse] returns the scheme in lower case, the existence check is
    made exactly for the URLs whose scheme is empty or lower-cases to
    "file". *)
Theorem scheme_case_and_existence_check
    (raw : Raw) (m : Machine (Builder Iso.config)) (c : Iso.config) (u : URL) :
  mapstructure_Decode raw (b_config (self m)) = (c, None) ->
  Iso.ISOUrl c ≠ "" ->
  url_Parse (Iso.ISOUrl c) = inl u ->
  exists r m' evs,
    Iso.Prepare raw m = Done r m' /\
    trace m' = trace m ++ evs /\
    (found_in (strings_ToLower (Scheme u)) ["file"; "http"; "https"] = true ->
     forall errs e, r = Some (MultiError errs) -> e ∈ errs ->
                    unsupported_scheme_error e = false) /\
    (existsb stat_event evs = true <-> Scheme u = "" \/ Scheme u = "file") /\
    (existsb stat_event evs = true ->
     forall err, os_Stat (Iso.ISOUrl c) = Some err ->
       exists errs, r = Some (MultiError errs) /\
                    "iso_url points to bad file: " +:+ err ∈ errs) /\
    (strings_ToLower (Scheme u) = Scheme u ->
     (existsb stat_event evs = true
      <-> Scheme u = "" \/ strings_ToLower (Scheme u) = "file")).
Proof.
  intros Hdec Hurl Hparse. rewrite (Prepare_decoded _ _ _ Hdec).
  do 3 eexists. split; [done|]. split; [done|].
  assert (Hevs : existsb stat_event (url_events c ++ driver_events) = true
                 <-> Scheme u = "" \/ Scheme u = "file").
  { rewrite existsb_app, driver_events_no_stat, orb_false_r.
    unfold url_events, effective. rewrite decide_False, Hparse by done.
    destruct (decide (Scheme u = "")) as [Hs|Hs]; cbn.
    - rewrite decide_True by done. cbn. intuition.
    - destruct (decide (Scheme u = "file")); cbn; intuition congruence. }
  split_and!.
  - intros Hfound errs e Hv.
    assert (errs = all_errs c) as ->.
    { unfold verdict in Hv. destruct (all_errs c); [done|]. by injection Hv. }
    unfold all_errs. rewrite !elem_of_app.
    intros [He|[He|He]];
      [by eapply md5_errs_supported | | by apply driver_errs_supported].
    revert He. unfold url_errs. rewrite decide_False, Hparse by done.
    case_decide as Hfile.
    + destruct (os_Stat _); [|by intros ?%elem_of_nil].
      by intros ->%list_elem_of_singleton.
    + unfold effective in *. case_decide; [done|].
      rewrite Hfound. by intros ?%elem_of_nil.
  - done.
  - intros Hstat%Hevs err Herr.
    assert (Hfile : Scheme (effective u) = "file").
    { unfold effective. destruct Hstat as [Hs|Hs]; rewrite Hs; by case_decide. }
    assert (Hin : "iso_url points to bad file: " +:+ err ∈ all_errs c).
    { unfold all_errs, url_errs.
      rewrite decide_False, Hparse, decide_True, Herr by done.
      rewrite !elem_of_app, list_elem_of_singleton. auto. }
    eexists. split; [by eapply verdict_failed | done].
  - intros Hlower. by rewrite Hevs, Hlower.
Qed.

End Properties.

(** ** The properties on the concrete world *)
Section OnTheHost.
Import World.

(** C1, as stated, fails: after a successful [Prepare], [Run] does not
    return an artifact that carries the output directory and VM name. *)
Lemma Run_yields_no_artifact :
  Prepare host spec_local (fresh_iso host) = Done None prepared_local /\
  ~ exists a : Artifact,
      returned (Run host tt tt tt prepared_local) = Some (Some a) /\
      artifact_dir a = Iso.OutputDir (b_config (self prepared_local)) /\
      artifact_name a = Iso.VMName (b_config (self prepared_local)).
Proof.
  split; [reflexivity|].
  intros (a & Hrun & _).
  unfold Run in Hrun. by rewrite Run_run in Hrun.
Qed.



(** C3 at its failing input: [Prepare] accepts the bare path of an
    existing image and stores the canonical URL "file:///tmp/foo.iso";
    [Prepare] on that canonical string, on the same builder or on a fresh
    one, calls [os.Stat] on the whole URL string and rejects it. *)
Theorem canonical_file_url_is_rejected :
  Prepare host spec_local (fresh_iso host) = Done None prepared_local /\
  Iso.ISOUrl (b_config (self prepared_local)) = "file:///tmp/foo.iso" /\
  returned (Prepare host
              {[ "iso_url" := RString (Iso.ISOUrl (b_config (self prepared_local))) ]}
              prepared_local)
  = Some (Some (MultiError
      ["iso_url points to bad file: stat file:///tmp/foo.iso: no such file or directory"])) /\
  returned (Prepare host spec_file_url (fresh_iso host))
  = Some (Some (MultiError
      ["iso_url points to bad file: stat file:///tmp/foo.iso: no such file or directory"])).
Proof. split_and!; reflexivity. Qed.

(** C4 at its failing input: the URL "file:///tmp/foo.iso" parses to the
    path "/tmp/foo.iso", which exists, but [Prepare] calls [os.Stat] on
    the URL string itself and records that the file is bad. *)
Theorem explicit_file_url_is_stat_as_raw_string :
  Parse "file:///tmp/foo.iso" = inl (mkURL "file" "" None "" "/tmp/foo.iso" "" "") /\
  Stat host "/tmp/foo.iso" = None /\
  Prepare host spec_file_url (fresh_iso host)
  = Done (Some (MultiError
      ["iso_url points to bad file: stat file:///tmp/foo.iso: no such file or directory"]))
      (mkMachine
         (mkBuilder
            (Iso.mkConfig "Other" "abcdef" "file:///tmp/foo.iso" "virtualbox" "packer")
            (Some (VBox42Driver "/usr/bin/VBoxManage")) None)
         [EvStat "file:///tmp/foo.iso"; EvLookPath "VBoxManage";
          EvLog "VBoxManage path: /usr/bin/VBoxManage";
          EvVerify (VBox42Driver "/usr/bin/VBoxManage")]).
Proof. split_and!; reflexivity. Qed.

Lemma Prepare_spec_missing :
  Prepare host spec_missing (fresh_iso host)
  = Done (Some (MultiError
      ["iso_url points to bad file: stat /tmp/missing.iso: no such file or directory"]))
      (mkMachine
         (mkBuilder
            (Iso.mkConfig "Other" "abcdef" "/tmp/missing.iso" "virtualbox" "packer")
            (Some (VBox42Driver "/usr/bin/VBoxManage")) None)
         [EvStat "/tmp/missing.iso"; EvLookPath "VBoxManage";
          EvLog "VBoxManage path: /usr/bin/VBoxManage";
          EvVerify (VBox42Driver "/usr/bin/VBoxManage")]).
Proof. reflexivity. Qed.

(** C5, as stated, fails: for an image that is not there, [Prepare] does
    not return its failure with no driver-side event performed. *)
Lemma driver_looked_up_despite_missing_file :
  ~ exists (e : PrepareError) (m' : Machine (Builder Iso.config)),
      Prepare host spec_missing (fresh_iso host) = Done (Some e) m' /\
      forall ev, ev ∈ trace m' -> driver_event ev = false.
Proof.
  intros (e & m' & Hrun & Hquiet).
  rewrite Prepare_spec_missing in Hrun. injection Hrun as _ <-.
  by specialize (Hquiet (EvLookPath "VBoxManage")
                        (list_elem_of_further _ _ _ (list_elem_of_here _ _))).
Qed.

Lemma missing_file_found_before_driver_lookup_on_host :
  (exists m',
     Prepare host spec_missing (fresh_iso host)
     = Done (Some (MultiError
         ["iso_url points to bad file: stat /tmp/missing.iso: no such file or directory"]))
         m' /\
     b_driver (self m') = Some (VBox42Driver "/usr/bin/VBoxManage") /\
     trace m' = [EvStat "/tmp/missing.iso"; EvLookPath "VBoxManage";
                 EvLog "VBoxManage path: /usr/bin/VBoxManage";
                 EvVerify (VBox42Driver "/usr/bin/VBoxManage")]) /\
  (exists m',
     Prepare bare spec_missing (fresh_iso bare)
     = Done (Some (MultiError
         ["iso_url points to bad file: stat /tmp/missing.iso: no such file or directory";
          "Failed creating VirtualBox driver: exec: " +:+ dquote +:+ "VBoxManage"
            +:+ dquote +:+ ": executable file not found in $PATH"]))
         m' /\
     b_driver (self m') = None /\
     trace m' = [EvStat "/tmp/missing.iso"; EvLookPath "VBoxManage"]).
Proof.
  split.
  - destruct (@missing_file_found_before_driver_lookup (world host) (decode_iso host)
                spec_missing (fresh_iso host)
                (Iso.mkConfig "" "ABCDEF" "/tmp/missing.iso" "" "")
                (mkURL "" "" None "" "/tmp/missing.iso" "" "")
                "stat /tmp/missing.iso: no such file or directory"
                ltac:(reflexivity) ltac:(discriminate) ltac:(reflexivity)
                ltac:(left; reflexivity) ltac:(reflexivity))
      as (errs & m' & bad & Hrun & -> & _ & Htrace & -> & Hdriver).
    exists m'. split; [exact Hrun|]. split; [exact Hdriver | exact Htrace].
  - destruct (@missing_file_found_before_driver_lookup (world bare) (decode_iso bare)
                spec_missing (fresh_iso bare)
                (Iso.mkConfig "" "ABCDEF" "/tmp/missing.iso" "" "")
                (mkURL "" "" None "" "/tmp/missing.iso" "" "")
                "stat /tmp/missing.iso: no such file or directory"
                ltac:(reflexivity) ltac:(discriminate) ltac:(reflexivity)
                ltac:(left; reflexivity) ltac:(reflexivity))
      as (errs & m' & bad & Hrun & -> & _ & -> & Hdriver & Htrace).
    exists m'. split; [exact Hrun|]. split; [exact Hdriver | exact Htrace].
Defined.

(** C6, as stated, fails twice.  A spec with a non-empty iso_md5 that the
    decoder rejects leaves the checksum as supplied, not lower-cased; and
    a spec without iso_md5 is accepted by a builder that holds a checksum
    from an earlier [Prepare]. *)
Lemma checksum_kept_as_supplied_or_not_required :
  spec_bad_type !! "iso_md5" = Some (RString "ABCDEF") /\
  (~ exists r m',
       Prepare host spec_bad_type (fresh_iso host) = Done r m' /\
       Iso.ISOMD5 (b_config (self m')) = ToLower "ABCDEF") /\
  spec_url_only !! "iso_md5" = None /\
  ~ exists e m', Prepare host spec_url_only prepared_local = Done (Some e) m'.
Proof.
  assert (Hbad : exists r tr,
            Prepare host spec_bad_type (fresh_iso host)
            = Done r (mkMachine (mkBuilder (Iso.mkConfig "" "ABCDEF" "" "" "") None None) tr))
    by (do 2 eexists; reflexivity).
  assert (Hreused : exists m', Prepare host spec_url_only prepared_local = Done None m').
  { exists (mkMachine (self prepared_local) (trace prepared_local ++ trace prepared_local)).
    reflexivity. }
  split_and!; [reflexivity | | reflexivity |].
  - destruct Hbad as (r0 & tr & Hrun). intros (r & m' & Hrun' & Hlower).
    rewrite Hrun in Hrun'. injection Hrun' as _ <-. discriminate.
  - destruct Hreused as (m0 & Hrun). intros (e & m' & Hrun').
    rewrite Hrun in Hrun'. discriminate.
Qed.

Lemma iso_md5_lowercased_on_host :
  exists r m',
    Prepare host spec_local (fresh_iso host) = Done r m' /\
    Iso.ISOMD5 (b_config (self m')) = "abcdef".
Proof.
  destruct (@iso_md5_required_and_lowercased (world host) (decode_iso host)
              spec_local (fresh_iso host)
              (Iso.mkConfig "" "ABCDEF" "/tmp/foo.iso" "" "")
              ltac:(reflexivity))
    as (r & m' & Hrun & _ & Hlower).
  exists r, m'. split; [exact Hrun|]. apply Hlower. discriminate.
Defined.

(** C7, as stated, fails: in both revisions a spec without the three
    names that the decoder rejects leaves all three empty. *)
Lemma undecodable_spec_gets_no_defaults :
  spec_number !! "guest_os_type" = None /\
  spec_number !! "output_directory" = None /\
  (exists e m',
     Prepare host spec_number (fresh_iso host) = Done (Some e) m' /\
     Iso.GuestOSType (b_config (self m')) = "" /\
     Iso.OutputDir (b_config (self m')) = "" /\
     Iso.VMName (b_config (self m')) = "") /\
  (exists e m',
     Prepare_base host spec_number (fresh_base host) = Done (Some e) m' /\
     Base.GuestOSType (b_config (self m')) = "" /\
     Base.OutputDir (b_config (self m')) = "" /\
     Base.VMName (b_config (self m')) = "").
Proof.
  split_and!; [reflexivity | reflexivity | |];
    do 2 eexists; split_and!; reflexivity.
Qed.

Lemma Prepare_applies_defaults_on_empty_spec :
  (exists r m',
     Prepare bare spec_empty (fresh_iso bare) = Done r m' /\
     Iso.GuestOSType (b_config (self m')) = "Other" /\
     Iso.OutputDir (b_config (self m')) = "virtualbox" /\
     Iso.VMName (b_config (self m')) = "packer") /\
  (exists r m',
     Prepare_base bare spec_empty (fresh_base bare) = Done r m' /\
     Base.GuestOSType (b_config (self m')) = "Other" /\
     Base.OutputDir (b_config (self m')) = "virtualbox" /\
     Base.VMName (b_config (self m')) = "packer").
Proof.
  destruct (@Prepare_applies_defaults (world bare) (decode_iso bare) (decode_base bare))
    as [Hiso Hbase].
  split.
  - destruct (Hiso spec_empty (fresh_iso bare) (Iso.mkConfig "" "" "" "" "")
               ltac:(reflexivity))
      as (r & m' & Hrun & Hg & Ho & Hv & _).
    exists r, m'. repeat split; assumption.
  - destruct (Hbase spec_empty (fresh_base bare) (Base.mkConfig "" "" "")
                ltac:(reflexivity))
      as (r & m' & Hrun & Hg & Ho & Hv & _).
    exists r, m'. repeat split; assumption.
Defined.



(** C9, as stated, fails: [Prepare] rejects a spec that names everything
    but the image, and the stored config is the decoded input, unchanged. *)
Lemma failed_Prepare_may_leave_config_as_decoded :
  ~ forall (e : PrepareError) (m' : Machine (Builder Iso.config)) (c : Iso.config),
      Prepare host spec_named (fresh_iso host) = Done (Some e) m' ->
      decode_iso host spec_named (b_config (self (fresh_iso host))) = (c, None) ->
      b_config (self m') ≠ c.
Proof.
  intros Hdiffers.
  apply (Hdiffers
           (MultiError ["An iso_url must be specified."])
           (mkMachine
              (mkBuilder (Iso.mkConfig "Linux" "abcdef" "" "out" "vm")
                         (Some (VBox42Driver "/usr/bin/VBoxManage")) None)
              [EvLookPath "VBoxManage";
               EvLog "VBoxManage path: /usr/bin/VBoxManage";
               EvVerify (VBox42Driver "/usr/bin/VBoxManage")])
           (Iso.mkConfig "Linux" "abcdef" "" "out" "vm"));
    reflexivity.
Qed.

Lemma failed_Prepare_keeps_its_changes_on_empty_spec :
  exists errs m',
    Prepare bare spec_empty (fresh_iso bare) = Done (Some (MultiError errs)) m' /\
    b_config (self m') = Iso.mkConfig "Other" "" "" "virtualbox" "packer" /\
    b_config (self m') ≠ Iso.mkConfig "" "" "" "" "".
Proof.
  destruct (@Prepare_returns (world bare) (decode_iso bare) spec_empty (fresh_iso bare))
    as (r & m' & Hrun).
  assert (Hr : exists errs, r = Some (MultiError errs)).
  { rewrite (@Prepare_decoded (world bare) (decode_iso bare) spec_empty
               (fresh_iso bare) (Iso.mkConfig "" "" "" "" "") eq_refl) in Hrun.
    injection Hrun as <- _. eexists; reflexivity. }
  destruct Hr as (errs & ->).
  destruct (@failed_Prepare_keeps_its_changes (world bare) (decode_iso bare)
              spec_empty (fresh_iso bare) m' (Iso.mkConfig "" "" "" "" "") errs
              ltac:(reflexivity) Hrun)
    as (Hg & Ho & Hv & Hmd5 & Hurl & Hsame).
  exists errs, m'. split; [exact Hrun|].
  assert (Hc : b_config (self m') = Iso.mkConfig "Other" "" "" "virtualbox" "packer").
  { destruct (b_config (self m')) as [g md5 url od vm]. cbn in *.
    rewrite Hg, Ho, Hv, Hmd5, (Hurl (or_introl eq_refl)). reflexivity. }
  split; [exact Hc|]. rewrite Hc. discriminate.
Defined.

Lemma Prepare_spec_upper :
  Prepare host spec_upper (fresh_iso host)
  = Done (Some (MultiError
      ["iso_url points to bad file: stat FILE:///tmp/missing.iso: no such file or directory"]))
      (mkMachine
         (mkBuilder
            (Iso.mkConfig "Other" "abcdef" "FILE:///tmp/missing.iso" "virtualbox" "packer")
            (Some (VBox42Driver "/usr/bin/VBoxManage")) None)
         [EvStat "FILE:///tmp/missing.iso"; EvLookPath "VBoxManage";
          EvLog "VBoxManage path: /usr/bin/VBoxManage";
          EvVerify (VBox42Driver "/usr/bin/VBoxManage")]).
Proof. reflexivity. Qed.

(** C10, as stated, fails: an iso_url written with the scheme "FILE"
    does not pass validation with no existence check.  [url.Parse]
    returns its scheme as "file", so [Prepare] calls [os.Stat] and
    rejects an image that is not there. *)
Lemma uppercase_FILE_scheme_is_checked :
  Parse "FILE:///tmp/missing.iso"
  = inl (mkURL "file" "" None "" "/tmp/missing.iso" "" "") /\
  ~ exists m',
      Prepare host spec_upper (fresh_iso host) = Done None m' /\
      existsb stat_event (trace m') = false.
Proof.
  split; [reflexivity|].
  intros (m' & Hrun & _). rewrite Prepare_spec_upper in Hrun. discriminate.
Qed.

Lemma uppercase_FILE_scheme_fails_on_missing_file :
  exists errs m',
    Prepare host spec_upper (fresh_iso host) = Done (Some (MultiError errs)) m' /\
    existsb stat_event (trace m') = true /\
    "iso_url points to bad file: stat FILE:///tmp/missing.iso: no such file or directory"
      ∈ errs.
Proof.
  destruct (@scheme_case_and_existence_check (world host) (decode_iso host)
              spec_upper (fresh_iso host)
              (Iso.mkConfig "" "ABCDEF" "FILE:///tmp/missing.iso" "" "")
              (mkURL "file" "" None "" "/tmp/missing.iso" "" "")
              ltac:(reflexivity) ltac:(discriminate) ltac:(reflexivity))
    as (r & m' & evs & Hrun & Htrace & _ & _ & Hchecked & Hlower).
  assert (Hstat : existsb stat_event evs = true).
  { apply (Hlower ltac:(reflexivity)). right; reflexivity. }
  destruct (Hchecked Hstat "stat FILE:///tmp/missing.iso: no such file or directory"
              ltac:(reflexivity))
    as (errs & -> & Hin).
  exists errs, m'. split; [exact Hrun|]. split; [|exact Hin].
  rewrite Htrace. exact Hstat.
Defined.

End OnTheHost.

(** ** Further properties of the builder *)
Section Further.
Context `{Ext : Externals} {DecI : Decoder Iso.config} {DecB : Decoder Base.config}.

Lemma found_in_elem_of (scheme : string) (l : list string) :
  found_in scheme l = true <-> scheme ∈ l.
Proof.
  induction l as [|s l IH]; cbn.
  - split; [done | by intros ?%elem_of_nil].
  - rewrite elem_of_cons. case_decide as Hs; [intuition|].
    rewrite IH. intuition.
Qed.

Lemma driver_outcome_cases :
  (exists err, exec_LookPath "VBoxManage" = inr err /\
               driver_made = None /\ driver_err = Some err /\
               driver_events = [EvLookPath "VBoxManage"]) \/
  (exists path err, exec_LookPath "VBoxManage" = inl path /\
               Driver_Verify (VBox42Driver path) = Some err /\
               driver_made = None /\ driver_err = Some err /\
               driver_events = [EvLookPath "VBoxManage";
                                EvLog ("VBoxManage path: " +:+ path);
                                EvVerify (VBox42Driver path)]) \/
  (exists path, exec_LookPath "VBoxManage" = inl path /\
               Driver_Verify (VBox42Driver path) = None /\
               driver_made = Some (VBox42Driver path) /\ driver_err = None /\
               driver_events = [EvLookPath "VBoxManage";
                                EvLog ("VBoxManage path: " +:+ path);
                                EvVerify (VBox42Driver path)]).
Proof.
  unfold driver_made, driver_err, driver_outcome, driver_events.
  destruct (exec_LookPath "VBoxManage") as [path|err]; [|left; by eexists].
  right. destruct (Driver_Verify (VBox42Driver path)) as [err|] eqn:Hv; cbn.
  - left. by exists path, err.
  - right. by exists path.
Qed.

(** What the iso_url check produces, case by case. *)
Lemma url_check_cases (c : Iso.config) :
  (Iso.ISOUrl c = "" /\ url_errs c = ["An iso_url must be specified."] /\
   url_events c = []) \/
  (exists err, Iso.ISOUrl c ≠ "" /\ url_Parse (Iso.ISOUrl c) = inr err /\
     url_errs c = ["iso_url is not a valid URL: " +:+ err] /\ url_events c = []) \/
  (exists u, Iso.ISOUrl c ≠ "" /\ url_Parse (Iso.ISOUrl c) = inl u /\
     (Scheme u = "" \/ Scheme u = "file") /\
     url_events c = [EvStat (Iso.ISOUrl c)] /\
     match os_Stat (Iso.ISOUrl c) with
     | Some err => url_errs c = ["iso_url points to bad file: " +:+ err]
     | None => url_errs c = []
     end) \/
  (exists u, Iso.ISOUrl c ≠ "" /\ url_Parse (Iso.ISOUrl c) = inl u /\
     Scheme u ≠ "" /\ Scheme u ≠ "file" /\ url_events c = [] /\
     if found_in (strings_ToLower (Scheme u)) ["file"; "http"; "https"]
     then url_errs c = []
     else url_errs c = ["Unsupported URL scheme in iso_url: "
                        +:+ strings_ToLower (Scheme u)]).
Proof.
  unfold url_errs, url_events, effective.
  destruct (decide (Iso.ISOUrl c = "")) as [Hu|Hu]; [by left|]. right.
  destruct (url_Parse (Iso.ISOUrl c)) as [u|err]; [|left; by exists err]. right.
  destruct (decide (Scheme u = "")) as [Hs|Hs].
  - left. exists u. rewrite decide_True by done.
    split_and!; auto. by destruct (os_Stat _).
  - destruct (decide (Scheme u = "file")) as [Hf|Hf].
    + left. exists u. split_and!; auto. by destruct (os_Stat _).
    + right. exists u. split_and!; auto. by destruct (found_in _ _).
Qed.

Lemma md5_errs_nil (c : Iso.config) : md5_errs c = [] <-> Iso.ISOMD5 c ≠ "".
Proof. unfold md5_errs. by case_decide. Qed.

Lemma driver_errs_nil :
  driver_errs = [] <->
  exists path, exec_LookPath "VBoxManage" = inl path /\
               Driver_Verify (VBox42Driver path) = None.
Proof.
  unfold driver_errs.
  destruct driver_outcome_cases
    as [(err & Hl & _ & -> & _)|[(path & err & Hl & Hv & _ & -> & _)
                                |(path & Hl & Hv & _ & -> & _)]].
  - split; [done|]. intros (path & Hp & _). congruence.
  - split; [done|]. intros (path' & Hp & Hv'). congruence.
  - split; [|done]. intros _. by exists path.
Qed.

Lemma url_errs_nil (c : Iso.config) :
  url_errs c = [] <->
  Iso.ISOUrl c ≠ "" /\
  exists u, url_Parse (Iso.ISOUrl c) = inl u /\
    ((Scheme u = "" \/ Scheme u = "file") /\ os_Stat (Iso.ISOUrl c) = None \/
     Scheme u ≠ "" /\ Scheme u ≠ "file" /\
     strings_ToLower (Scheme u) ∈ ["file"; "http"; "https"]).
Proof.
  destruct (url_check_cases c)
    as [(Hu & -> & _)|[(err & Hu & Hp & -> & _)
       |[(u & Hu & Hp & Hs & _ & Hst)|(u & Hu & Hp & Hs & Hf & _ & Hfound)]]].
  - split; [done|]. by intros [? _].
  - split; [done|]. intros (_ & u & Hp' & _). congruence.
  - destruct (os_Stat (Iso.ISOUrl c)) as [err|]; rewrite Hst.
    + split; [done|]. intros (_ & u' & Hp' & [[_ ?]|(Hn1 & Hn2 & _)]); [done|].
      assert (u' = u) as -> by congruence. by destruct Hs.
    + split; [|done]. intros _. split; [done|]. exists u. auto.
  - destruct (found_in _ _) eqn:Hin; rewrite Hfound.
    + split; [|done]. intros _. split; [done|]. exists u. split; [done|].
      right. split_and!; auto. by apply found_in_elem_of.
    + split; [done|]. intros (_ & u' & Hp' & Hcase).
      assert (u' = u) as -> by congruence.
      destruct Hcase as [[[?|?] _]|(_ & _ & Hin')]; [done|done|].
      apply found_in_elem_of in Hin'. congruence.
Qed.

Lemma all_errs_nil (c : Iso.config) :
  all_errs c = [] <-> md5_errs c = [] /\ url_errs c = [] /\ driver_errs = [].
Proof.
  unfold all_errs. split.
  - intros H. apply app_eq_nil in H as [? H]. apply app_eq_nil in H as [? ?]. auto.
  - by intros (-> & -> & ->).
Qed.

(** X2: for a raw spec that decodes, [Prepare] returns nil exactly when
    iso_md5 is not empty, iso_url is not empty and parses, its scheme is
    empty or "file" and [os.Stat] finds the iso_url string, or is another
    scheme whose lower-casing is "file", "http" or "https", and
    VBoxManage is on the PATH and the driver verifies. *)
Theorem Prepare_succeeds_iff
    (raw : Raw) (m : Machine (Builder Iso.config)) (c : Iso.config) :
  mapstructure_Decode raw (b_config (self m)) = (c, None) ->
  returned (Iso.Prepare raw m) = Some None <->
  Iso.ISOMD5 c ≠ "" /\ Iso.ISOUrl c ≠ "" /\
  (exists u, url_Parse (Iso.ISOUrl c) = inl u /\
     ((Scheme u = "" \/ Scheme u = "file") /\ os_Stat (Iso.ISOUrl c) = None \/
      Scheme u ≠ "" /\ Scheme u ≠ "file" /\
      strings_ToLower (Scheme u) ∈ ["file"; "http"; "https"])) /\
  (exists path, exec_LookPath "VBoxManage" = inl path /\
                Driver_Verify (VBox42Driver path) = None).
Proof.
  intros Hdec. rewrite (Prepare_decoded _ _ _ Hdec). cbn [returned].
  rewrite <- md5_errs_nil, <- driver_errs_nil.
  rewrite (and_assoc (Iso.ISOUrl c ≠ "")), <- url_errs_nil, <- all_errs_nil.
  rewrite <- verdict_nil. split; [by intros [= ->] | by intros ->].
Qed.

(** X3: after a [Prepare] that returned nil, the builder holds the
    [VBox42Driver] built on the path [exec.LookPath] found, the
    re-serialised URL (with "file" for an empty scheme), the lower-cased
    checksum, and the runner it had before. *)
Theorem successful_Prepare_leaves_builder_ready
    (raw : Raw) (m m' : Machine (Builder Iso.config)) (c : Iso.config) :
  mapstructure_Decode raw (b_config (self m)) = (c, None) ->
  Iso.Prepare raw m = Done None m' ->
  exists u path,
    url_Parse (Iso.ISOUrl c) = inl u /\
    exec_LookPath "VBoxManage" = inl path /\
    b_driver (self m') = Some (VBox42Driver path) /\
    Iso.ISOUrl (b_config (self m'))
      = URL_String (if decide (Scheme u = "") then set_Scheme "file" u else u) /\
    Iso.ISOMD5 (b_config (self m')) = strings_ToLower (Iso.ISOMD5 c) /\
    b_runner (self m') = b_runner (self m).
Proof.
  intros Hdec Hrun. rewrite (Prepare_decoded _ _ _ Hdec) in Hrun.
  injection Hrun as Hv <-. apply verdict_nil, all_errs_nil in Hv as (Hmd5 & Hurl & Hdrv).
  pose proof Hurl as Hurl'. apply url_errs_nil in Hurl' as (Hne & u & Hp & _).
  apply md5_errs_nil in Hmd5 as Hmd5'.
  destruct driver_outcome_cases
    as [(err & _ & _ & He & _)|[(path & err & _ & _ & _ & He & _)
                               |(path & Hl & _ & Hmade & _)]];
    [unfold driver_errs in Hdrv; by rewrite He in Hdrv..|].
  exists u, path. cbn [self b_config b_driver b_runner prepared Iso.ISOUrl Iso.ISOMD5].
  split_and!; try done.
  - unfold url_stored. rewrite decide_False, Hp, Hmd5, Hurl by done.
    by rewrite decide_True.
  - unfold md5_stored. by rewrite decide_False.
Qed.

(** X4: a [MultiError] returned by [Prepare] is never empty and holds at
    most three errors (one per check: iso_md5, iso_url, driver). *)
Theorem MultiError_is_never_empty
    (raw : Raw) (m : Machine (Builder Iso.config)) (errs : list error) :
  returned (Iso.Prepare raw m) = Some (Some (MultiError errs)) ->
  1 <= length errs <= 3.
Proof.
  destruct (mapstructure_Decode raw (b_config (self m))) as [c [err|]] eqn:Hdec.
  - by rewrite (Prepare_undecoded _ _ _ _ Hdec).
  - rewrite (Prepare_decoded _ _ _ Hdec). cbn [returned]. intros [= Hv].
    assert (errs = all_errs c) as ->.
    { unfold verdict in Hv. destruct (all_errs c); [done|]. by injection Hv. }
    split.
    + destruct (all_errs c); [done|]. cbn. lia.
    + unfold all_errs. rewrite !length_app.
      assert (length (md5_errs c) <= 1) by (unfold md5_errs; case_decide; cbn; lia).
      assert (length driver_errs <= 1)
        by (unfold driver_errs; destruct driver_err; cbn; lia).
      assert (length (url_errs c) <= 1).
      { destruct (url_check_cases c)
          as [(_ & -> & _)|[(err & _ & _ & -> & _)
             |[(u & _ & _ & _ & _ & Hst)|(u & _ & _ & _ & _ & _ & Hf)]]];
          cbn; try lia.
        - destruct (os_Stat _); rewrite Hst; cbn; lia.
        - destruct (found_in _ _); rewrite Hf; cbn; lia. }
      lia.
Qed.

(** X5: for a raw spec that decodes, [Prepare] assigns the driver field
    whatever [newDriver] returned: it is nil when VBoxManage is not found
    or the driver does not verify, and then the driver's error is the
    last entry of the returned [MultiError]; otherwise it is the new
    driver and the result holds the field errors only. *)
Theorem driver_is_nil_exactly_when_its_error_is_reported
    (raw : Raw) (m m' : Machine (Builder Iso.config)) (c : Iso.config)
    (r : option PrepareError) :
  mapstructure_Decode raw (b_config (self m)) = (c, None) ->
  Iso.Prepare raw m = Done r m' ->
  (forall err, exec_LookPath "VBoxManage" = inr err ->
     b_driver (self m') = None /\
     exists errs, r = Some (MultiError errs) /\
                  last errs = Some ("Failed creating VirtualBox driver: " +:+ err)) /\
  (forall path err, exec_LookPath "VBoxManage" = inl path ->
     Driver_Verify (VBox42Driver path) = Some err ->
     b_driver (self m') = None /\
     exists errs, r = Some (MultiError errs) /\
                  last errs = Some ("Failed creating VirtualBox driver: " +:+ err)) /\
  (forall path, exec_LookPath "VBoxManage" = inl path ->
     Driver_Verify (VBox42Driver path) = None ->
     b_driver (self m') = Some (VBox42Driver path) /\
     r = verdict (md5_errs c ++ url_errs c)).
Proof.
  intros Hdec Hrun. rewrite (Prepare_decoded _ _ _ Hdec) in Hrun.
  injection Hrun as <- <-. cbn [self b_driver].
  unfold all_errs, driver_errs.
  assert (Hfail : forall err,
            exists errs,
              verdict (md5_errs c ++ url_errs c
                       ++ ["Failed creating VirtualBox driver: " +:+ err])
                = Some (MultiError errs) /\
              last errs = Some ("Failed creating VirtualBox driver: " +:+ err)).
  { intros err. eexists. split.
    - eapply verdict_failed. rewrite !elem_of_app, list_elem_of_singleton. eauto.
    - by rewrite app_assoc, last_snoc. }
  destruct driver_outcome_cases
    as [(err & Hl & -> & -> & _)|[(path & err & Hl & Hv & -> & -> & _)
                                 |(path & Hl & Hv & -> & -> & _)]];
    rewrite Hl; split_and!; try (intros; congruence).
  - intros ? [= <-]. auto.
  - intros ? ? [= <-] Hv'. assert (err0 = err) as -> by congruence. auto.
  - intros ? [= <-] _. by rewrite app_nil_r.
Qed.

(** X6: [newDriver] returns either a driver and no error, or no driver
    and an error, never both and never neither.  It leaves the receiver
    alone, always looks VBoxManage up first, and logs the path and calls
    [Verify] only when the lookup succeeded. *)
Theorem newDriver_returns_a_driver_or_an_error {C} (m : Machine (Builder C)) :
  exists d e evs,
    newDriver m = Done (d, e) (mkMachine (self m) (trace m ++ EvLookPath "VBoxManage" :: evs)) /\
    (d = None <-> is_Some e) /\
    (forall err, exec_LookPath "VBoxManage" = inr err -> e = Some err /\ evs = []) /\
    (forall path, exec_LookPath "VBoxManage" = inl path ->
       evs = [EvLog ("VBoxManage path: " +:+ path); EvVerify (VBox42Driver path)] /\
       e = Driver_Verify (VBox42Driver path) /\
       (e = None -> d = Some (VBox42Driver path))).
Proof.
  rewrite newDriver_run.
  destruct driver_outcome_cases
    as [(err & Hl & -> & -> & ->)|[(path & err & Hl & Hv & -> & -> & ->)
                                 |(path & Hl & Hv & -> & -> & ->)]];
    rewrite Hl.
  - exists None, (Some err), []. split_and!; [done| |by intros ? [= <-]|done].
    split; [by eexists|done].
  - exists None, (Some err), [EvLog ("VBoxManage path: " +:+ path);
                                EvVerify (VBox42Driver path)].
    split_and!; [done| |done|]; [split; [by eexists|done]|].
    intros ? [= <-]. by rewrite Hv.
  - exists (Some (VBox42Driver path)), None,
           [EvLog ("VBoxManage path: " +:+ path); EvVerify (VBox42Driver path)].
    split_and!; [done| |done|]; [split; [done|by intros [? ?]]|].
    intros ? [= <-]. by rewrite Hv.
Qed.

Lemma unsupported_scheme_error_named (s : string) :
  unsupported_scheme_error ("Unsupported URL scheme in iso_url: " +:+ s) = true.
Proof. unfold unsupported_scheme_error. by destruct s. Qed.

(** X7: for an iso_url that parses, [Prepare] reports an
    unsupported-scheme error exactly when the scheme is neither empty nor
    "file" and its lower-casing is none of "file", "http", "https"; the
    message names the lower-cased scheme and iso_url is left as given. *)
Theorem unsupported_scheme_is_rejected_by_name
    (raw : Raw) (m m' : Machine (Builder Iso.config)) (c : Iso.config) (u : URL)
    (r : option PrepareError) :
  mapstructure_Decode raw (b_config (self m)) = (c, None) ->
  Iso.ISOUrl c ≠ "" ->
  url_Parse (Iso.ISOUrl c) = inl u ->
  Iso.Prepare raw m = Done r m' ->
  ((exists errs e, r = Some (MultiError errs) /\ e ∈ errs /\
                   unsupported_scheme_error e = true) <->
   Scheme u ≠ "" /\ Scheme u ≠ "file" /\
   strings_ToLower (Scheme u) ∉ ["file"; "http"; "https"]) /\
  (Scheme u ≠ "" -> Scheme u ≠ "file" ->
   strings_ToLower (Scheme u) ∉ ["file"; "http"; "https"] ->
   (exists errs, r = Some (MultiError errs) /\
      "Unsupported URL scheme in iso_url: " +:+ strings_ToLower (Scheme u) ∈ errs) /\
   Iso.ISOUrl (b_config (self m')) = Iso.ISOUrl c).
Proof.
  intros Hdec Hne Hp Hrun. rewrite (Prepare_decoded _ _ _ Hdec) in Hrun.
  injection Hrun as <- <-.
  assert (Hbad : Scheme u ≠ "" -> Scheme u ≠ "file" ->
                 strings_ToLower (Scheme u) ∉ ["file"; "http"; "https"] ->
                 url_errs c = ["Unsupported URL scheme in iso_url: "
                               +:+ strings_ToLower (Scheme u)]).
  { intros H1 H2 H3. unfold url_errs, effective.
    rewrite decide_False, Hp, !decide_False by (by rewrite ?decide_False).
    destruct (found_in _ _) eqn:Hf; [|done]. by apply found_in_elem_of in Hf. }
  split.
  - split.
    + intros (errs & e & Hv & He & Hun).
      assert (errs = all_errs c) as ->.
      { unfold verdict in Hv. destruct (all_errs c); [done|]. by injection Hv. }
      unfold all_errs in He. rewrite !elem_of_app in He.
      destruct He as [He|[He|He]];
        [apply md5_errs_supported in He; congruence | |
         apply driver_errs_supported in He; congruence].
      destruct (url_check_cases c)
        as [(Hu & _)|[(err & _ & Hp' & _)
           |[(u' & _ & Hp' & Hs & _ & Hst)|(u' & _ & Hp' & Hs & Hf & _ & Hfound)]]];
        [done|congruence| |].
      * destruct (os_Stat _); rewrite Hst in He;
          [|by apply elem_of_nil in He].
        apply list_elem_of_singleton in He as ->. done.
      * assert (u' = u) as -> by congruence.
        destruct (found_in _ _) eqn:Hin; rewrite Hfound in He;
          [by apply elem_of_nil in He|].
        split_and!; [done..|]. intros Hin'%found_in_elem_of. congruence.
    + intros (H1 & H2 & H3). do 2 eexists. split_and!.
      * eapply verdict_failed. unfold all_errs.
        rewrite (Hbad H1 H2 H3), !elem_of_app, list_elem_of_singleton. eauto.
      * unfold all_errs.
        rewrite (Hbad H1 H2 H3), !elem_of_app, list_elem_of_singleton. eauto.
      * apply unsupported_scheme_error_named.
  - intros H1 H2 H3. split.
    + eexists. split.
      * eapply verdict_failed. unfold all_errs.
        rewrite (Hbad H1 H2 H3), !elem_of_app, list_elem_of_singleton. eauto.
      * unfold all_errs.
        rewrite (Hbad H1 H2 H3), !elem_of_app, list_elem_of_singleton. eauto.
    + cbn [self b_config prepared Iso.ISOUrl]. unfold url_stored.
      rewrite decide_False, Hp, (Hbad H1 H2 H3) by done.
      rewrite decide_False; [done|]. by destruct (md5_errs c).
Qed.

(** X8: an iso_url that [url.Parse] rejects is reported with the parser's
    error; [Prepare] does not fault on the nil URL, makes no [os.Stat]
    call and leaves iso_url as given. *)
Theorem invalid_url_is_reported_and_kept
    (raw : Raw) (m : Machine (Builder Iso.config)) (c : Iso.config) (err : error) :
  mapstructure_Decode raw (b_config (self m)) = (c, None) ->
  Iso.ISOUrl c ≠ "" ->
  url_Parse (Iso.ISOUrl c) = inr err ->
  exists errs m' evs,
    Iso.Prepare raw m = Done (Some (MultiError errs)) m' /\
    "iso_url is not a valid URL: " +:+ err ∈ errs /\
    Iso.ISOUrl (b_config (self m')) = Iso.ISOUrl c /\
    trace m' = trace m ++ evs /\
    existsb stat_event evs = false.
Proof.
  intros Hdec Hne Hp. rewrite (Prepare_decoded _ _ _ Hdec).
  assert (He : url_errs c = ["iso_url is not a valid URL: " +:+ err]).
  { unfold url_errs. by rewrite decide_False, Hp. }
  assert (Hev : url_events c = []).
  { unfold url_events. by rewrite decide_False, Hp. }
  assert (Hin : "iso_url is not a valid URL: " +:+ err ∈ all_errs c).
  { unfold all_errs. rewrite He, !elem_of_app, list_elem_of_singleton. auto. }
  do 3 eexists. split_and!.
  - f_equal. by eapply verdict_failed.
  - done.
  - cbn. unfold url_stored. by rewrite decide_False, Hp.
  - reflexivity.
  - rewrite Hev. apply driver_events_no_stat.
Qed.

Lemma Prepare_ok_inv
    (raw : Raw) (m m' : Machine (Builder Iso.config)) (c : Iso.config) :
  mapstructure_Decode raw (b_config (self m)) = (c, None) ->
  Iso.Prepare raw m = Done None m' ->
  md5_errs c = [] /\ url_errs c = [] /\ driver_errs = [] /\
  m' = mkMachine (mkBuilder (prepared c) driver_made (b_runner (self m)))
                 (trace m ++ url_events c ++ driver_events).
Proof.
  intros Hdec Hrun. rewrite (Prepare_decoded _ _ _ Hdec) in Hrun.
  injection Hrun as Hv <-. by apply verdict_nil, all_errs_nil in Hv as (? & ? & ?).
Qed.

Lemma url_stored_cases (c : Iso.config) (u : URL) :
  Iso.ISOUrl c ≠ "" ->
  url_Parse (Iso.ISOUrl c) = inl u ->
  url_stored c = if decide (md5_errs c ++ url_errs c = [])
                 then URL_String (effective u) else Iso.ISOUrl c.
Proof. intros Hne Hp. unfold url_stored. by rewrite decide_False, Hp. Qed.

Lemma url_errs_accepted (c : Iso.config) (u : URL) :
  Iso.ISOUrl c ≠ "" ->
  url_Parse (Iso.ISOUrl c) = inl u ->
  url_errs c = [] <->
  (Scheme u = "" \/ Scheme u = "file") /\ os_Stat (Iso.ISOUrl c) = None \/
  Scheme u ≠ "" /\ Scheme u ≠ "file" /\
  strings_ToLower (Scheme u) ∈ ["file"; "http"; "https"].
Proof.
  intros Hne Hp. rewrite url_errs_nil. split.
  - intros (_ & u' & Hp' & H). by assert (u' = u) as -> by congruence.
  - intros H. split; [done|]. by exists u.
Qed.

(** X9: iso_url is rewritten when, and only when, the checksum is present
    and the URL was accepted; the outcome of the driver construction,
    which comes later, has no influence.  So a [Prepare] that fails on
    the driver alone has already replaced iso_url by its re-serialised
    form. *)
Theorem url_is_rewritten_whatever_the_driver_does
    (raw : Raw) (m m' : Machine (Builder Iso.config)) (c : Iso.config) (u : URL)
    (r : option PrepareError) :
  mapstructure_Decode raw (b_config (self m)) = (c, None) ->
  Iso.ISOUrl c ≠ "" ->
  url_Parse (Iso.ISOUrl c) = inl u ->
  Iso.Prepare raw m = Done r m' ->
  let accepted :=
    (Scheme u = "" \/ Scheme u = "file") /\ os_Stat (Iso.ISOUrl c) = None \/
    Scheme u ≠ "" /\ Scheme u ≠ "file" /\
    strings_ToLower (Scheme u) ∈ ["file"; "http"; "https"] in
  (Iso.ISOMD5 c ≠ "" /\ accepted ->
   Iso.ISOUrl (b_config (self m'))
     = URL_String (if decide (Scheme u = "") then set_Scheme "file" u else u)) /\
  (Iso.ISOMD5 c = "" \/ ~ accepted ->
   Iso.ISOUrl (b_config (self m')) = Iso.ISOUrl c).
Proof.
  intros Hdec Hne Hp Hrun accepted. rewrite (Prepare_decoded _ _ _ Hdec) in Hrun.
  injection Hrun as _ <-. cbn [self b_config prepared Iso.ISOUrl].
  pose proof (url_errs_accepted c u Hne Hp) as Hacc.
  rewrite (url_stored_cases c u Hne Hp). split.
  - intros [Hmd5%md5_errs_nil Hok%Hacc]. rewrite Hmd5, Hok. by rewrite decide_True.
  - intros Hbad. rewrite decide_False; [done|].
    intros [Hmd5%md5_errs_nil Hok%Hacc]%app_eq_nil. by destruct Hbad.
Qed.

(** X10: for a URL with a scheme other than "file" whose re-serialised
    form parses back to the same URL, [Prepare] is stable: after a
    successful [Prepare] the config holds the re-serialised URL, and a
    second [Prepare] on the stored config succeeds and changes nothing
    (given that lower-casing the checksum twice is lower-casing it once). *)
Theorem remote_url_is_stable_under_Prepare
    (raw raw' : Raw) (m m1 : Machine (Builder Iso.config)) (c : Iso.config) (u : URL) :
  mapstructure_Decode raw (b_config (self m)) = (c, None) ->
  Iso.Prepare raw m = Done None m1 ->
  url_Parse (Iso.ISOUrl c) = inl u ->
  Scheme u ≠ "" -> Scheme u ≠ "file" ->
  URL_String u ≠ "" ->
  url_Parse (URL_String u) = inl u ->
  strings_ToLower (Iso.ISOMD5 c) ≠ "" ->
  strings_ToLower (strings_ToLower (Iso.ISOMD5 c)) = strings_ToLower (Iso.ISOMD5 c) ->
  mapstructure_Decode raw' (b_config (self m1)) = (b_config (self m1), None) ->
  Iso.ISOUrl (b_config (self m1)) = URL_String u /\
  exists m2,
    Iso.Prepare raw' m1 = Done None m2 /\
    b_config (self m2) = b_config (self m1).
Proof.
  intros Hdec Hrun Hp Hs Hf Hstr Hround Hlow Hidem Hdec'.
  destruct (Prepare_ok_inv _ _ _ _ Hdec Hrun) as (Hmd5 & Hurl & Hdrv & Hm1).
  assert (Hne : Iso.ISOUrl c ≠ "") by (by apply url_errs_nil in Hurl as [? _]).
  assert (Heff : effective u = u) by (unfold effective; by rewrite decide_False).
  assert (Hin : strings_ToLower (Scheme u) ∈ ["file"; "http"; "https"]).
  { apply (url_errs_accepted c u Hne Hp) in Hurl as [[[?|?] _]|(_ & _ & ?)]; done. }
  assert (Hc1 : b_config (self m1) = prepared c) by (by rewrite Hm1).
  assert (H1 : Iso.ISOMD5 (prepared c) = strings_ToLower (Iso.ISOMD5 c)).
  { cbn. unfold md5_stored. rewrite decide_False; [done|]. by apply md5_errs_nil. }
  assert (H2 : Iso.ISOUrl (prepared c) = URL_String u).
  { cbn. rewrite (url_stored_cases c u Hne Hp), Hmd5, Hurl, Heff. by rewrite decide_True. }
  split; [by rewrite Hc1|].
  rewrite (Prepare_decoded _ _ _ Hdec'). rewrite Hc1.
  assert (Hm : md5_errs (prepared c) = []) by (apply md5_errs_nil; by rewrite H1).
  assert (Hu : url_errs (prepared c) = []).
  { apply url_errs_nil. rewrite H2. split; [done|]. exists u. auto. }
  eexists. split.
  - f_equal. apply verdict_nil, all_errs_nil. auto.
  - cbn [self b_config]. unfold prepared at 1.
    rewrite (url_stored_cases (prepared c) u) by (by rewrite H2).
    rewrite Hm, Hu, Heff, decide_True by done. unfold md5_stored at 1.
    rewrite H1, decide_False, Hidem by done. rewrite <- H1, <- H2.
    unfold prepared, defaulted. cbn. f_equal; by repeat case_decide.
Qed.

(** X1: when the decoder rejects the raw spec, [Prepare] (both revisions)
    returns the decoder's error at once: the config stays as the decoder
    left it (no default is applied, nothing is lower-cased), the driver
    and the runner are untouched, and no outside call is made. *)
Theorem undecodable_spec_stops_Prepare :
  (forall (raw : Raw) (m : Machine (Builder Iso.config)) (c : Iso.config) (err : error),
     mapstructure_Decode raw (b_config (self m)) = (c, Some err) ->
     Iso.Prepare raw m
     = Done (Some (DecodeError err))
            (mkMachine (mkBuilder c (b_driver (self m)) (b_runner (self m)))
                       (trace m))) /\
  (forall (raw : Raw) (m : Machine (Builder Base.config)) (c : Base.config) (err : error),
     mapstructure_Decode raw (b_config (self m)) = (c, Some err) ->
     Base.Prepare raw m
     = Done (Some (DecodeError err))
            (mkMachine (mkBuilder c (b_driver (self m)) (b_runner (self m)))
                       (trace m))).
Proof.
  split; intros raw m c err Hdec;
    [apply Prepare_undecoded | apply Prepare_base_undecoded]; done.
Qed.

Lemma url_events_cases (c : Iso.config) :
  url_events c = [] \/ url_events c = [EvStat (Iso.ISOUrl c)].
Proof.
  destruct (url_check_cases c)
    as [(_ & _ & ->)|[(err & _ & _ & _ & ->)
       |[(u & _ & _ & _ & -> & _)|(u & _ & _ & _ & _ & -> & _)]]]; auto.
Qed.

Lemma driver_events_cases :
  driver_events = [EvLookPath "VBoxManage"] \/
  exists path, driver_events = [EvLookPath "VBoxManage";
                                EvLog ("VBoxManage path: " +:+ path);
                                EvVerify (VBox42Driver path)].
Proof.
  destruct driver_outcome_cases
    as [(err & _ & _ & _ & ->)|[(path & err & _ & _ & _ & _ & ->)
                               |(path & _ & _ & _ & _ & ->)]]; eauto.
Qed.

(** X11: [Prepare] (both revisions, any raw spec) returns, keeps the
    runner field as it was, and only appends events: never a runner
    event, at most one [os.Stat] (none in the earlier revision), and at
    most the two driver-side calls. *)
Theorem Prepare_leaves_the_runner_alone :
  (forall (raw : Raw) (m : Machine (Builder Iso.config)),
     exists r m' evs,
       Iso.Prepare raw m = Done r m' /\
       b_runner (self m') = b_runner (self m) /\
       trace m' = trace m ++ evs /\
       Forall (fun ev => match ev with
                         | EvRunnerRun _ | EvRunnerCancel => False
                         | _ => True
                         end) evs /\
       length (filter (fun ev => stat_event ev = true) evs) <= 1 /\
       length (filter (fun ev => driver_event ev = true) evs) <= 2) /\
  (forall (raw : Raw) (m : Machine (Builder Base.config)),
     exists r m' evs,
       Base.Prepare raw m = Done r m' /\
       b_runner (self m') = b_runner (self m) /\
       trace m' = trace m ++ evs /\
       Forall (fun ev => match ev with
                         | EvRunnerRun _ | EvRunnerCancel => False
                         | _ => True
                         end) evs /\
       length (filter (fun ev => stat_event ev = true) evs) = 0 /\
       length (filter (fun ev => driver_event ev = true) evs) <= 2).
Proof.
  split; intros raw m;
    destruct (mapstructure_Decode raw (b_config (self m))) as [c [err|]] eqn:Hdec.
  - rewrite (Prepare_undecoded _ _ _ _ Hdec). do 2 eexists. exists [].
    cbn. rewrite app_nil_r. split_and!; auto.
  - rewrite (Prepare_decoded _ _ _ Hdec). do 3 eexists.
    split; [done|]. split; [done|]. split; [done|].
    destruct (url_events_cases c) as [-> | ->],
             driver_events_cases as [-> | (path & ->)];
      cbn; split_and!; repeat constructor.
  - rewrite (Prepare_base_undecoded _ _ _ _ Hdec). do 2 eexists. exists [].
    cbn. rewrite app_nil_r. split_and!; auto.
  - rewrite (Prepare_base_decoded _ _ _ Hdec). do 3 eexists.
    split; [done|]. split; [done|]. split; [done|].
    destruct driver_events_cases as [-> | (path & ->)];
      cbn; split_and!; repeat constructor.
Qed.

(** X16: in the earlier revision the driver is the only check: for a raw
    spec that decodes, [Prepare] returns nil and stores the new driver
    when VBoxManage is found and verifies, and otherwise returns a
    [MultiError] with the driver's error as its single entry and a nil
    driver. *)
Theorem Base_Prepare_fails_only_on_the_driver
    (raw : Raw) (m : Machine (Builder Base.config)) (c : Base.config) :
  mapstructure_Decode raw (b_config (self m)) = (c, None) ->
  exists r m',
    Base.Prepare raw m = Done r m' /\
    (forall err, exec_LookPath "VBoxManage" = inr err ->
       r = Some (MultiError ["Failed creating VirtualBox driver: " +:+ err]) /\
       b_driver (self m') = None) /\
    (forall path err, exec_LookPath "VBoxManage" = inl path ->
       Driver_Verify (VBox42Driver path) = Some err ->
       r = Some (MultiError ["Failed creating VirtualBox driver: " +:+ err]) /\
       b_driver (self m') = None) /\
    (forall path, exec_LookPath "VBoxManage" = inl path ->
       Driver_Verify (VBox42Driver path) = None ->
       r = None /\ b_driver (self m') = Some (VBox42Driver path)).
Proof.
  intros Hdec. rewrite (Prepare_base_decoded _ _ _ Hdec). do 2 eexists.
  split; [done|]. cbn [self b_driver]. unfold driver_errs.
  destruct driver_outcome_cases
    as [(err & Hl & -> & -> & _)|[(path & err & Hl & Hv & -> & -> & _)
                                 |(path & Hl & Hv & -> & -> & _)]];
    rewrite Hl; split_and!; try (intros; congruence).
  - by intros ? [= <-].
  - intros ? ? [= <-] Hv'. by assert (err0 = err) as -> by congruence.
  - by intros ? [= <-] _.
Qed.

(** X12: a [Cancel] that arrives before any [Run] is lost: with no runner
    installed, [Cancel] followed by [Run] is [Run] (both revisions). *)
Theorem Cancel_before_the_first_Run_is_lost (ui : Ui) (hook : Hook) (cache : Cache) :
  (forall m : Machine (Builder Iso.config),
     b_runner (self m) = None ->
     (Cancel ≫= fun _ => Iso.Run ui hook cache) m = Iso.Run ui hook cache m) /\
  (forall m : Machine (Builder Base.config),
     b_runner (self m) = None ->
     (Cancel ≫= fun _ => Base.Run ui hook cache) m = Base.Run ui hook cache m).
Proof.
  split; intros m Hnil; rewrite (bind_run _ _ _ _ _ (Cancel_run m)); by rewrite Hnil.
Qed.

(** X13: [Run] never reuses a runner: whatever runner the builder holds
    (cancelled or not), [Run] replaces it by a fresh one over its own
    steps, with the same outcome as on a builder that holds none. *)
Theorem Run_replaces_any_runner (ui : Ui) (hook : Hook) (cache : Cache)
    (old : option Runner) :
  (forall m : Machine (Builder Iso.config),
     exists m1 m2,
       Iso.Run ui hook cache (mkMachine (set_runner old (self m)) (trace m))
         = Done None m1 /\
       Iso.Run ui hook cache m = Done None m2 /\
       m1 = m2) /\
  (forall m : Machine (Builder Base.config),
     exists m1 m2,
       Base.Run ui hook cache (mkMachine (set_runner old (self m)) (trace m))
         = Done None m1 /\
       Base.Run ui hook cache m = Done None m2 /\
       m1 = m2).
Proof.
  split; intros m; do 2 eexists;
    rewrite ?Run_run, ?Run_base_run; split_and!; reflexivity.
Qed.

(** X14: [Cancel] after [Run] reaches the runner that [Run] installed:
    the runner's state is that of a fresh runner after [Run] and then
    [Cancel], the trace grows by the run, the log line and the cancel,
    and config and driver are as before. *)
Theorem Cancel_after_Run_reaches_the_new_runner
    (ui : Ui) (hook : Hook) (cache : Cache) :
  (forall m : Machine (Builder Iso.config),
     (Iso.Run ui hook cache ≫= fun _ => Cancel) m
     = Done tt
         (mkMachine
            (mkBuilder (b_config (self m)) (b_driver (self m))
               (Some (BasicRunner iso_steps
                        (BasicRunner_Cancel
                           (BasicRunner_Run iso_steps
                              (state_bag ui hook cache (b_driver (self m)))
                              BasicRunner_zero)))))
            (trace m ++ [EvRunnerRun iso_steps;
                         EvLog "Cancelling the step runner...";
                         EvRunnerCancel]))) /\
  (forall m : Machine (Builder Base.config),
     (Base.Run ui hook cache ≫= fun _ => Cancel) m
     = Done tt
         (mkMachine
            (mkBuilder (b_config (self m)) (b_driver (self m))
               (Some (BasicRunner base_steps
                        (BasicRunner_Cancel
                           (BasicRunner_Run base_steps
                              (state_bag ui hook cache (b_driver (self m)))
                              BasicRunner_zero)))))
            (trace m ++ [EvRunnerRun base_steps;
                         EvLog "Cancelling the step runner...";
                         EvRunnerCancel]))).
Proof.
  split; intros m.
  - rewrite (bind_run _ _ _ _ _ (Run_run ui hook cache m)), Cancel_run.
    cbn. by rewrite <- app_assoc.
  - rewrite (bind_run _ _ _ _ _ (Run_base_run ui hook cache m)), Cancel_run.
    cbn. by rewrite <- app_assoc.
Qed.

(** X15: the state bag [Run] hands to the runner has exactly the keys
    "cache", "config", "driver", "hook" and "ui", bound to the three
    arguments, a pointer to the config, and the driver field as it
    is at the call (nil when [Prepare] has not stored one). *)
Theorem Run_hands_five_values_to_the_steps
    (ui : Ui) (hook : Hook) (cache : Cache) (m : Machine (Builder Iso.config)) :
  exists bag m',
    Iso.Run ui hook cache m = Done None m' /\
    b_runner (self m')
      = Some (BasicRunner iso_steps (BasicRunner_Run iso_steps bag BasicRunner_zero)) /\
    dom bag = ({["cache"; "config"; "driver"; "hook"; "ui"]} : gset string) /\
    bag !! "cache" = Some (VCache cache) /\
    bag !! "config" = Some VConfigPtr /\
    bag !! "driver" = Some (VDriver (b_driver (self m))) /\
    bag !! "hook" = Some (VHook hook) /\
    bag !! "ui" = Some (VUi ui).
Proof.
  exists (state_bag ui hook cache (b_driver (self m))). eexists.
  rewrite Run_run. split; [done|]. split; [done|]. unfold state_bag.
  split; [rewrite !dom_insert_L, dom_empty_L; set_solver|].
  split_and!; by simplify_map_eq.
Qed.

End Further.

(** ** The further properties on the concrete world *)
Section FurtherOnTheHost.
Import World.

Lemma undecodable_spec_stops_Prepare_on_host :
  Prepare host spec_bad_type (fresh_iso host)
  = Done (Some (DecodeError
             "'vm_name' expected type 'string', got unconvertible type 'int'"))
         (mkMachine (mkBuilder (Iso.mkConfig "" "ABCDEF" "" "" "") None None) []).
Proof.
  apply (proj1 (@undecodable_spec_stops_Prepare (world host) (decode_iso host)
                  (decode_base host))
               spec_bad_type (fresh_iso host)).
  reflexivity.
Defined.

Lemma Prepare_succeeds_on_remote_image :
  returned (Prepare host spec_http (fresh_iso host)) = Some None.
Proof.
  apply (proj2 (@Prepare_succeeds_iff (world host) (decode_iso host)
                  spec_http (fresh_iso host)
                  (Iso.mkConfig "" "ABCDEF" "http://example.com/os.iso" "" "")
                  ltac:(reflexivity))).
  split; [discriminate|]. split; [discriminate|]. split.
  - exists (mkURL "http" "" None "example.com" "/os.iso" "" "").
    split; [reflexivity|]. right.
    split; [discriminate|]. split; [discriminate|].
    apply list_elem_of_further, list_elem_of_here.
  - exists "/usr/bin/VBoxManage". split; reflexivity.
Defined.

Lemma successful_Prepare_leaves_builder_ready_on_host :
  exists u path,
    Parse "/tmp/foo.iso" = inl u /\
    LookPath host "VBoxManage" = inl path /\
    b_driver (self prepared_local) = Some (VBox42Driver path) /\
    Iso.ISOUrl (b_config (self prepared_local))
      = String_ (if decide (Scheme u = "") then set_Scheme "file" u else u) /\
    Iso.ISOMD5 (b_config (self prepared_local)) = ToLower "ABCDEF" /\
    b_runner (self prepared_local) = None.
Proof.
  apply (@successful_Prepare_leaves_builder_ready (world host) (decode_iso host)
           spec_local (fresh_iso host) prepared_local
           (Iso.mkConfig "" "ABCDEF" "/tmp/foo.iso" "" ""));
    reflexivity.
Defined.

Lemma MultiError_is_never_empty_on_host :
  exists errs,
    returned (Prepare host spec_empty (fresh_iso host))
    = Some (Some (MultiError errs)) /\
    1 <= length errs <= 3.
Proof.
  exists ["Due to large file sizes, an iso_md5 is required";
          "An iso_url must be specified."].
  split; [reflexivity|].
  apply (@MultiError_is_never_empty (world host) (decode_iso host)
           spec_empty (fresh_iso host)
           ["Due to large file sizes, an iso_md5 is required";
            "An iso_url must be specified."]).
  reflexivity.
Defined.

Lemma driver_is_nil_without_VirtualBox :
  exists err r m',
    LookPath bare "VBoxManage" = inr err /\
    Prepare bare spec_local (fresh_iso bare) = Done r m' /\
    b_driver (self m') = None /\
    exists errs, r = Some (MultiError errs) /\
                 last errs = Some ("Failed creating VirtualBox driver: " +:+ err).
Proof.
  destruct (@Prepare_returns (world bare) (decode_iso bare) spec_local (fresh_iso bare))
    as (r & m' & Hrun).
  destruct (@driver_is_nil_exactly_when_its_error_is_reported
              (world bare) (decode_iso bare) spec_local (fresh_iso bare) m'
              (Iso.mkConfig "" "ABCDEF" "/tmp/foo.iso" "" "") r
              ltac:(reflexivity) Hrun) as (Hmissing & _).
  eexists. exists r, m'. split; [reflexivity|]. split; [exact Hrun|].
  apply Hmissing. reflexivity.
Defined.

Lemma unsupported_scheme_is_rejected_by_name_on_host :
  exists r m',
    Prepare host spec_ftp (fresh_iso host) = Done r m' /\
    (exists errs, r = Some (MultiError errs) /\
                  "Unsupported URL scheme in iso_url: ftp" ∈ errs) /\
    Iso.ISOUrl (b_config (self m')) = "FTP://example.com/os.iso".
Proof.
  destruct (@Prepare_returns (world host) (decode_iso host) spec_ftp (fresh_iso host))
    as (r & m' & Hrun).
  destruct (@unsupported_scheme_is_rejected_by_name
              (world host) (decode_iso host) spec_ftp (fresh_iso host) m'
              (Iso.mkConfig "" "ABCDEF" "FTP://example.com/os.iso" "" "")
              (mkURL "ftp" "" None "example.com" "/os.iso" "" "") r
              ltac:(reflexivity) ltac:(discriminate) ltac:(reflexivity) Hrun)
    as (_ & Hnamed).
  exists r, m'. split; [exact Hrun|].
  apply Hnamed; [discriminate | discriminate |].
  intros Hin. repeat (apply elem_of_cons in Hin as [Hin|Hin]; [discriminate|]).
  by apply elem_of_nil in Hin.
Defined.

Lemma invalid_url_is_reported_and_kept_on_host :
  exists errs m' evs,
    Prepare host spec_bad_url (fresh_iso host) = Done (Some (MultiError errs)) m' /\
    "iso_url is not a valid URL: parse :foo: missing protocol scheme" ∈ errs /\
    Iso.ISOUrl (b_config (self m')) = ":foo" /\
    trace m' = evs /\
    existsb stat_event evs = false.
Proof.
  apply (@invalid_url_is_reported_and_kept (world host) (decode_iso host)
           spec_bad_url (fresh_iso host)
           (Iso.mkConfig "" "ABCDEF" ":foo" "" "")
           "parse :foo: missing protocol scheme");
    [reflexivity | discriminate | reflexivity].
Defined.

Lemma url_is_rewritten_without_VirtualBox :
  exists r m',
    Prepare bare spec_local (fresh_iso bare) = Done r m' /\
    Iso.ISOUrl (b_config (self m')) = "file:///tmp/foo.iso".
Proof.
  destruct (@Prepare_returns (world bare) (decode_iso bare) spec_local (fresh_iso bare))
    as (r & m' & Hrun).
  destruct (@url_is_rewritten_whatever_the_driver_does
              (world bare) (decode_iso bare) spec_local (fresh_iso bare) m'
              (Iso.mkConfig "" "ABCDEF" "/tmp/foo.iso" "" "")
              (mkURL "" "" None "" "/tmp/foo.iso" "" "") r
              ltac:(reflexivity) ltac:(discriminate) ltac:(reflexivity) Hrun)
    as (Hrewritten & _).
  exists r, m'. split; [exact Hrun|].
  apply Hrewritten. split; [discriminate|]. left. split; [by left|reflexivity].
Defined.

Lemma remote_url_is_stable_on_host :
  exists m1 m2,
    Prepare host spec_http (fresh_iso host) = Done None m1 /\
    Iso.ISOUrl (b_config (self m1)) = "http://example.com/os.iso" /\
    Prepare host {[ "iso_url" := RString "http://example.com/os.iso" ]} m1
      = Done None m2 /\
    b_config (self m2) = b_config (self m1).
Proof.
  set (m1 := mkMachine
               (mkBuilder
                  (Iso.mkConfig "Other" "abcdef" "http://example.com/os.iso"
                                "virtualbox" "packer")
                  (Some (VBox42Driver "/usr/bin/VBoxManage")) None)
               [EvLookPath "VBoxManage";
                EvLog "VBoxManage path: /usr/bin/VBoxManage";
                EvVerify (VBox42Driver "/usr/bin/VBoxManage")]
             : Machine (@Builder (world host) Iso.config)).
  destruct (@remote_url_is_stable_under_Prepare
              (world host) (decode_iso host) spec_http
              ({[ "iso_url" := RString "http://example.com/os.iso" ]}
                 : gmap string RawValue)
              (fresh_iso host) m1
              (Iso.mkConfig "" "ABCDEF" "http://example.com/os.iso" "" "")
              (mkURL "http" "" None "example.com" "/os.iso" "" "")
              ltac:(reflexivity) ltac:(reflexivity) ltac:(reflexivity)
              ltac:(discriminate) ltac:(discriminate) ltac:(discriminate)
              ltac:(reflexivity) ltac:(discriminate) ltac:(reflexivity)
              ltac:(reflexivity))
    as (Hurl & m2 & Hrun2 & Hsame).
  exists m1, m2. split; [reflexivity|]. split; [exact Hurl|].
  split; [exact Hrun2 | exact Hsame].
Defined.

Lemma Cancel_before_the_first_Run_is_lost_on_host :
  (Cancel host ≫= fun _ => Run host tt tt tt) (fresh_iso host)
  = Run host tt tt tt (fresh_iso host).
Proof.
  apply (proj1 (@Cancel_before_the_first_Run_is_lost (world host) tt tt tt)
               (fresh_iso host)).
  reflexivity.
Defined.

Lemma Base_Prepare_succeeds_with_VirtualBox :
  exists r m',
    Prepare_base host spec_empty (fresh_base host) = Done r m' /\
    r = None /\
    b_driver (self m') = Some (VBox42Driver "/usr/bin/VBoxManage").
Proof.
  destruct (@Base_Prepare_fails_only_on_the_driver (world host) (decode_base host)
              spec_empty (fresh_base host) (Base.mkConfig "" "" "")
              ltac:(reflexivity))
    as (r & m' & Hrun & _ & _ & Hok).
  exists r, m'. split; [exact Hrun|].
  apply Hok; reflexivity.
Defined.

End FurtherOnTheHost.
